(** * Patient management service: a shallow embedding and its properties

  The service is an Express application (src/index.ts) whose routes are
  guarded by a Cognito token verifier
  (src/middleware/authentication.middleware.ts) and served by two
  adapters: a DynamoDB record store (src/modules/dynamo.ts) and an
  OpenSearch index (src/modules/search.ts).  Configuration comes from
  src/config.ts.

  Asynchronous functions are embedded as functions returning a settled
  promise ([Fulfilled] or [Rejected]); the adapters additionally thread
  the state of the two managed services.  Console logging is not part of
  what a caller observes and is left out. *)

From stdpp Require Import gmap strings list fin_maps.
From Stdlib Require Import ZArith Ascii.

Local Set Warnings "-register-all".
Local Open Scope Z_scope.
Local Open Scope string_scope.

(** ** JavaScript values *)

Module Js.

(** The values a parsed JSON body, a JWT header or a DynamoDB attribute
    can hold.  [JsNum] carries integer-valued numbers; no operation of the
    service looks at a number other than for truthiness. *)
Inductive JsValue : Type :=
| JsUndefined
| JsNull
| JsBool (b : bool)
| JsNum (n : Z)
| JsStr (s : string)
| JsArr (elems : list JsValue)
| JsObj (props : list (string * JsValue)).

(** A plain object read by property name. *)
Abbreviation JsObject := (gmap string JsValue).

(** [o.k]: reading a property that is not there gives [undefined]. *)
Definition prop (o : JsObject) (k : string) : JsValue :=
  default JsUndefined (o !! k).

(** ToBoolean, as used by [!x] and [x || y]. *)
Definition truthy (v : JsValue) : bool :=
  match v with
  | JsUndefined | JsNull => false
  | JsBool b => b
  | JsNum n => negb (Z.eqb n 0)
  | JsStr s => negb (String.eqb s "")
  | JsArr _ | JsObj _ => true
  end.

Definition is_undefined (v : JsValue) : bool :=
  match v with JsUndefined => true | _ => false end.

(** What is left of a value after [JSON.stringify] and back: [undefined]
    has no rendering of its own, an array entry that is [undefined] comes
    back as [null], an object property that is [undefined] is left out. *)
Fixpoint jsonify (v : JsValue) : option JsValue :=
  match v with
  | JsUndefined => None
  | JsArr elems => Some (JsArr (List.map (fun e => default JsNull (jsonify e)) elems))
  | JsObj props =>
      Some (JsObj (omap (fun p => match jsonify (snd p) with
                                  | Some v' => Some (fst p, v')
                                  | None => None
                                  end) props))
  | _ => Some v
  end.

(** An object as its JSON rendering carries it. *)
Definition JSON_roundtrip (o : JsObject) : JsObject := omap jsonify o.

(** The properties of an object that are not [undefined]. *)
Definition drop_undefined (o : JsObject) : JsObject :=
  omap (fun v => if is_undefined v then None else Some v) o.

(** Case folding as a regular expression with the [i] flag does it for
    the letters of a route: [A] to [Z] match [a] to [z], nothing else is
    touched. *)
Definition ascii_lower (c : ascii) : ascii :=
  let n := nat_of_ascii c in
  if (65 <=? n)%nat && (n <=? 90)%nat then ascii_of_nat (n + 32) else c.

Fixpoint lower (s : string) : string :=
  match s with
  | EmptyString => EmptyString
  | String c s' => String (ascii_lower c) (lower s')
  end.

(** [s1.includes(s2)]-style containment: [sub] occurs in [s] as a
    contiguous run of characters. *)
Fixpoint is_substring (sub s : string) : bool :=
  String.prefix sub s ||
  match s with
  | EmptyString => false
  | String _ s' => is_substring sub s'
  end.

(** Exceptions are [Error] objects carrying a message. *)
Inductive Exn : Type := Error (message : string).

(** The state an awaited promise settles in; [throw] inside an async
    function rejects its promise. *)
Inductive Settled (A : Type) : Type :=
| Fulfilled (a : A)
| Rejected (e : Exn).
Arguments Fulfilled {A} a.
Arguments Rejected {A} e.

Definition is_fulfilled {A} (r : Settled A) : bool :=
  match r with Fulfilled _ => true | Rejected _ => false end.

(** [Math.round(ms / 1000)]: nearest integer, ties towards +infinity.
    For a millisecond clock the quotient is at least 1/1000 away from a
    tie unless it is one exactly, so the rounded double is this floor. *)
Definition Math_round_div1000 (ms : Z) : Z := (ms + 500) / 1000.

End Js.
Export Js.

(** ** Configuration (src/config.ts) *)

Module Config.

Record Aws : Type := {
  awsRegion : option string;
  clientId : option string;
  poolId : option string;
  awsTokenIssuer : string;
  dynamoDBTableName : string;
  openSearchDomain : option string;
  openSearchIndexName : string;
}.

(** A template literal renders a missing environment variable as the
    text [undefined]. *)
Definition interpolate (v : option string) : string :=
  default "undefined" v.

Definition Configs (process_env : gmap string string) : Aws := {|
  awsRegion := process_env !! "AWS_REGION";
  clientId := process_env !! "AWS_POOL_CLIENT_ID";
  poolId := process_env !! "AWS_USER_POOL_ID";
  awsTokenIssuer :=
    "https://cognito-idp." +:+ interpolate (process_env !! "AWS_REGION")
    +:+ ".amazonaws.com/" +:+ interpolate (process_env !! "AWS_USER_POOL_ID");
  dynamoDBTableName := "Patients";
  openSearchDomain := process_env !! "OPENSEARCH_DOMAIN";
  openSearchIndexName := "patients";
|}.

End Config.

(** ** HTTP requests and responses *)

Module Http.

Inductive Method : Type := GET | POST | PATCH | DELETE.

(** The errors [express.json()] raises on a request entity, with the
    status each carries: JSON that does not parse, an entity over the size
    limit, a charset or encoding it does not support. *)
Inductive BodyError : Type :=
| EntityParseFailed
| EntityTooLarge
| UnsupportedEncoding.

Definition body_error_status (e : BodyError) : Z :=
  match e with
  | EntityParseFailed => 400
  | EntityTooLarge => 413
  | UnsupportedEncoding => 415
  end.

(** A request as it reaches the application: the method; the path as
    the segments between its slashes, as sent (a trailing slash leaves an
    empty last segment); the lower-cased header map; the query string; and
    what [express.json()] makes of the entity, the parsed object (the empty
    object when there is no JSON entity) or the error it raises. *)
Record Request : Type := {
  method : Method;
  path : list string;
  headers : gmap string string;
  query : gmap string string;
  payload : BodyError + JsObject;
}.

(** [req.body], as the handlers read it. *)
Definition body (req : Request) : JsObject :=
  match payload req with
  | inr o => o
  | inl _ => ∅
  end.

(** What the caller receives: the status line and the serialised body
    (filled in below, once the payload types are declared). *)

End Http.
Export Http.

(** ** The two managed services *)

Module Aws.

(** *** What the surroundings decide during one request *)

Record Hit : Type := {
  _id : string;
  _source : JsObject;
}.

Record Env : Type := {
  (** whether DynamoDB serves a well-formed request (otherwise the call
      rejects: unreachable, throttled, refused) *)
  dynamo_serves : bool;
  (** how many items fit the 1 MB that one Query or Scan request reads *)
  page_items : nat;
  (** whether OpenSearch serves a request *)
  opensearch_serves : bool;
  (** the document id OpenSearch assigns when none is given *)
  opensearch_auto_id : string;
  (** the hits OpenSearch returns for a match query on a field, given the
      documents it holds (analysis, ranking and result size are its own) *)
  opensearch_hits : string -> string -> gmap string JsObject -> list Hit;
  (** the identifier [uuidv4()] returns *)
  uuidv4 : string;
  (** [new Date().getTime()], in milliseconds since the epoch *)
  Date_getTime : Z;
  (** [decodeURIComponent], which Express applies to a route parameter;
      [None] when it throws a URIError *)
  decodeURIComponent : string -> option string;
}.

(** *** Requests to the services *)

(** The commands of @aws-sdk/lib-dynamodb the service sends, all against
    the table [Configs.aws.dynamoDBTableName].  [Key] is the value of the
    [PatientID] key attribute; [UpdateCommand] carries its [SET] clause
    with the [#name] and [:value] placeholders resolved; [QueryCommand]
    carries the index name and the operand of [Address = :address];
    [ScanCommand] the attribute and operand of [contains(#a, :v)]. *)
Inductive Command : Type :=
| GetCommand (Key : string)
| PutCommand (Item : JsObject)
| UpdateCommand (Key : string) (SET : list (string * JsValue))
| DeleteCommand (Key : string)
| QueryCommand (IndexName : string) (KeyAttribute : string) (operand : JsValue)
| ScanCommand (FilterAttribute : string) (operand : JsValue).

(** The fields of a command output the service reads. *)
Record CommandOutput : Type := {
  Item : option JsObject;
  Items : option (list JsObject);
  Attributes : option JsObject;
}.

Definition empty_output : CommandOutput :=
  {| Item := None; Items := None; Attributes := None |}.

(** The calls of the OpenSearch client, all against the index
    [Configs.aws.openSearchIndexName]. *)
Inductive OsRequest : Type :=
| OsIndex (id : JsValue) (body : JsObject)
| OsDelete (id : string)
| OsSearch (field : string) (text : JsValue).

Inductive Call : Type :=
| DynamoSend (cmd : Command)
| OpenSearchCall (r : OsRequest).

(** *** State *)

(** The table, the index, and the client methods invoked so far:
    [dynamo.send] and the methods of the OpenSearch client.  How often a
    client puts one invocation on the wire is its own business. *)

Record World : Type := {
  store : gmap string JsObject;
  index : gmap string JsObject;
  calls : list Call;
}.

Definition set_store (f : gmap string JsObject -> gmap string JsObject)
    (w : World) : World :=
  {| store := f (store w); index := index w; calls := calls w |}.

Definition set_index (f : gmap string JsObject -> gmap string JsObject)
    (w : World) : World :=
  {| store := store w; index := f (index w); calls := calls w |}.

Definition record_call (c : Call) (w : World) : World :=
  {| store := store w; index := index w; calls := calls w ++ [c] |}.

(** *** Asynchronous computations over the services *)

Definition M (A : Type) : Type := World -> Settled A * World.

Definition ret {A} (a : A) : M A := fun w => (Fulfilled a, w).

Definition throw {A} (e : Exn) : M A := fun w => (Rejected e, w).

Definition bind {A B} (m : M A) (k : A -> M B) : M B := fun w =>
  match m w with
  | (Fulfilled a, w') => k a w'
  | (Rejected e, w') => (Rejected e, w')
  end.

(** [try { m } catch (error) { h error }]: what [m] did to the services
    before it threw stays done. *)
Definition try_catch {A} (m : M A) (h : Exn -> M A) : M A := fun w =>
  match m w with
  | (Fulfilled a, w') => (Fulfilled a, w')
  | (Rejected e, w') => h e w'
  end.

Notation "'const' x ':=' 'await' m 'in' k" := (bind m (fun x => k))
  (at level 10, x name, m at level 200, k at level 200,
   format "'[v' 'const'  x  :=  'await'  m  'in' '/' k ']'").

(** *** DynamoDB *)

(** The document client marshalls each attribute of an item, and each
    expression value, on its own.  One that is [undefined] is left out;
    [undefined] deeper inside a value makes the marshaller throw
    ([removeUndefinedValues] is not set). *)
Fixpoint marshallable (v : JsValue) : bool :=
  match v with
  | JsUndefined => false
  | JsArr elems => forallb marshallable elems
  | JsObj props => forallb (fun p => marshallable (snd p)) props
  | _ => true
  end.

Definition marshallable_map (o : JsObject) : bool :=
  bool_decide (map_Forall (fun _ v => marshallable v = true) o).

(** The key of an item: its [PatientID], a non-empty string. *)
Definition item_key (item : JsObject) : option string :=
  match item !! "PatientID" with
  | Some (JsStr id) => if String.eqb id "" then None else Some id
  | _ => None
  end.

Definition valid_key (k : string) : bool := negb (String.eqb k "").

(** The table has the index [Address-index], which [findPatientsByAddress]
    queries with a string: [Address] is its string key.  DynamoDB refuses
    to write an [Address] that is there and is not a non-empty string. *)
Definition index_key_ok (v : JsValue) : bool :=
  match v with
  | JsStr a => negb (String.eqb a "")
  | _ => false
  end.

(** What is checked before a command has any effect.  A put: the
    attributes that are left marshall, among them a key and, if there is an
    [Address], a proper one.  An update: the key is proper and every value
    the expression names is there (one left out as [undefined] is missed by
    the service) and proper.  A query or scan: the operand is there. *)
Definition well_formed (cmd : Command) : bool :=
  match cmd with
  | GetCommand k => valid_key k
  | PutCommand item =>
      marshallable_map (drop_undefined item)
      && bool_decide (is_Some (item_key item))
      && match drop_undefined item !! "Address" with
         | Some v => index_key_ok v
         | None => true
         end
  | UpdateCommand k sets =>
      valid_key k
      && forallb (fun p => marshallable (snd p)) sets
      && forallb (fun p => if String.eqb (fst p) "Address"
                           then index_key_ok (snd p) else true) sets
  | DeleteCommand k => valid_key k
  | QueryCommand _ _ v =>
      match v with JsStr s => valid_key s | _ => false end
  | ScanCommand _ v => marshallable v
  end.

(** DynamoDB's [contains (path, operand)]: for a string attribute, the
    operand is a substring; for a list attribute, some element equals the
    operand.  (String sets cannot come out of a JSON body.)  The service
    only ever passes a string operand. *)
Definition dynamo_contains (attribute operand : JsValue) : bool :=
  match attribute, operand with
  | JsStr s, JsStr sub => is_substring sub s
  | JsArr elems, JsStr x =>
      existsb (fun e => match e with JsStr y => String.eqb y x | _ => false end) elems
  | _, _ => false
  end.

(** [a = :v] in a key condition, for the string operand the service
    passes. *)
Definition dynamo_equals (attribute operand : JsValue) : bool :=
  match attribute, operand with
  | JsStr x, JsStr y => String.eqb x y
  | _, _ => false
  end.

(** [SET a1 = v1, a2 = v2, ...] on an item. *)
Definition apply_set (sets : list (string * JsValue)) (item : JsObject) : JsObject :=
  foldr (fun p acc => <[fst p := snd p]> acc) item sets.

(** The items of the table in the order the service walks them. *)
Definition table_items (w : World) : list JsObject :=
  (map_to_list (store w)).*2.

(** The effect and the output of a command the service accepts.  [PutItem]
    stores the attributes that were marshalled under the item's key;
    [UpdateItem] creates the item when the key is not there; [DeleteItem]
    of a missing key succeeds.  A Query returns one page of the items that
    match its key condition; a Scan reads one page of the table and then
    filters it.  Neither is followed up with a request for the next page. *)
Definition dynamo_run (env : Env) (cmd : Command) (w : World) : CommandOutput * World :=
  match cmd with
  | GetCommand k =>
      ({| Item := store w !! k; Items := None; Attributes := None |}, w)
  | PutCommand item =>
      (empty_output,
       match item_key item with
       | Some k => set_store (insert k (drop_undefined item)) w
       | None => w
       end)
  | UpdateCommand k sets =>
      (empty_output,
       set_store (insert k (apply_set sets
                    (default {[ "PatientID" := JsStr k ]} (store w !! k)))) w)
  | DeleteCommand k => (empty_output, set_store (delete k) w)
  | QueryCommand _ a v =>
      ({| Item := None;
          Items := Some (take (page_items env)
                     (List.filter (fun item => dynamo_equals (prop item a) v)
                        (table_items w)));
          Attributes := None |}, w)
  | ScanCommand a v =>
      ({| Item := None;
          Items := Some (List.filter (fun item => dynamo_contains (prop item a) v)
                     (take (page_items env) (table_items w)));
          Attributes := None |}, w)
  end.

(** [dynamo.send(command)] *)
Definition dynamo_send (env : Env) (cmd : Command) : M CommandOutput := fun w =>
  let w := record_call (DynamoSend cmd) w in
  if negb (well_formed cmd) then (Rejected (Error "ValidationException"), w)
  else if negb (dynamo_serves env) then (Rejected (Error "ServiceUnavailable"), w)
  else let '(out, w') := dynamo_run env cmd w in (Fulfilled out, w').

End Aws.
Export Aws.

(** *** OpenSearch *)

Module OpenSearchClient.

(** A non-empty string names the document; without one the service
    assigns an id.  ([createPatient] reaches [index] only after the put has
    accepted the same [PatientID], a non-empty string.) *)
Definition document_id (env : Env) (id : JsValue) : string :=
  match id with
  | JsStr s => if String.eqb s "" then opensearch_auto_id env else s
  | _ => opensearch_auto_id env
  end.

(** [OpenSearchClient.index({ index, id, body })]: the document is the
    body as its JSON rendering carries it. *)
Definition index (env : Env) (id : JsValue) (body : JsObject) : M unit := fun w =>
  let w := record_call (OpenSearchCall (OsIndex id body)) w in
  if opensearch_serves env
  then (Fulfilled tt, set_index (insert (document_id env id) (JSON_roundtrip body)) w)
  else (Rejected (Error "ConnectionError"), w).

(** [OpenSearchClient.delete({ index, id })]: a missing document is a 404
    response, which the client raises as an error. *)
Definition delete (env : Env) (id : string) : M unit := fun w =>
  let w := record_call (OpenSearchCall (OsDelete id)) w in
  if opensearch_serves env
  then match Aws.index w !! id with
       | Some _ => (Fulfilled tt, set_index (base.delete id) w)
       | None => (Rejected (Error "Response Error"), w)
       end
  else (Rejected (Error "ConnectionError"), w).

(** [OpenSearchClient.search({ index, body: { query: { match } } })], read
    at [body.hits.hits].  An [undefined] text leaves the match query empty,
    which the service refuses. *)
Definition search (env : Env) (field : string) (text : JsValue) : M (list Hit) := fun w =>
  let w := record_call (OpenSearchCall (OsSearch field text)) w in
  if opensearch_serves env
  then match text with
       | JsStr t => (Fulfilled (opensearch_hits env field t (Aws.index w)), w)
       | _ => (Rejected (Error "Response Error"), w)
       end
  else (Rejected (Error "ConnectionError"), w).

End OpenSearchClient.

(** ** The search index adapter (src/modules/search.ts) *)

Definition indexPatient (env : Env) (patientData : JsObject) : M unit :=
  try_catch
    (OpenSearchClient.index env (prop patientData "PatientID") patientData)
    (fun _ => throw (Error "Error occurred while indexing the patient in opensearch")).

Definition removePatientFromOpenSearch (env : Env) (PatientID : string) : M unit :=
  try_catch
    (OpenSearchClient.delete env PatientID)
    (fun _ => throw (Error "Failed to remove patient from OpenSearch")).

Definition searchByCondition (env : Env) (condition : JsValue) : M (list Hit) :=
  try_catch
    (OpenSearchClient.search env "Conditions" condition)
    (fun _ => throw (Error "Error occurred while searching patient by condition from OpenSearch")).

Definition searchByAddress (env : Env) (address : JsValue) : M (list Hit) :=
  try_catch
    (OpenSearchClient.search env "Address" address)
    (fun _ => throw (Error "Error occurred while searching patient by address from OpenSearch")).

(** ** The record store adapter (src/modules/dynamo.ts) *)

Definition getPatient (env : Env) (PatientID : string) : M CommandOutput :=
  dynamo_send env (GetCommand PatientID).

Definition createPatient (env : Env) (patientData : JsObject) : M JsObject :=
  try_catch
    (const _ := await dynamo_send env (PutCommand patientData) in
     const _ := await indexPatient env patientData in
     ret patientData)
    (fun _ => throw (Error "Error occurred while creating the patient")).

Definition updatePatient (env : Env) (PatientID : string) (updateData : JsObject)
    : M CommandOutput :=
  try_catch
    (dynamo_send env
       (UpdateCommand PatientID
          [ ("Name", prop updateData "Name");
            ("Address", prop updateData "Address");
            ("Conditions", prop updateData "Conditions");
            ("Allergies", prop updateData "Allergies") ]))
    (fun _ => throw (Error "Error occurred while updating the patient")).

Definition deletePatient (env : Env) (PatientID : string) : M CommandOutput :=
  try_catch
    (const result := await dynamo_send env (DeleteCommand PatientID) in
     const _ := await removePatientFromOpenSearch env PatientID in
     ret result)
    (fun _ => throw (Error "Error occurred while deleting the patient")).

Definition findPatientsByAddress (env : Env) (Address : JsValue) : M CommandOutput :=
  try_catch
    (dynamo_send env (QueryCommand "Address-index" "Address" Address))
    (fun _ => throw (Error "Error occurred while fetching the patient by address")).

Definition findPatientsByCondition (env : Env) (input : JsValue) : M CommandOutput :=
  try_catch
    (dynamo_send env (ScanCommand "Conditions" input))
    (fun _ => throw (Error "Error occurred while fetching the patient by condition")).

(** ** Responses *)

(** What a handler puts in the [data] field of its envelope. *)
Inductive Data : Type :=
| DataPatient (patientData : JsObject)
| DataOutput (result : CommandOutput)
| DataHits (hits : list Hit)
| DataItems (items : option (list JsObject))
| DataItem (item : option JsObject).

Record Envelope : Type := {
  statusCode : string;
  data : Data;
  description : string;
}.

(** [res.send(text)], [res.json(envelope)], or a page Express serves
    itself: the one for a request no route matches, and the one its error
    handler renders for an error raised before a route is reached. *)
Inductive Content : Type :=
| Text (text : string)
| Json (envelope : Envelope)
| ExpressNotFound
| ExpressErrorPage.

Record Response : Type := {
  status : Z;
  content : Content;
}.

(** ** The token verifier (src/middleware/authentication.middleware.ts) *)

Module Auth.

(** [jwt.decode(token, { complete: true })] as far as it is read: the
    [kid] of the header. *)
Record DecodedJwt : Type := {
  header_kid : JsValue;
}.

Record JwksOptions : Type := {
  cache : bool;
  jwksUri : string;
  cacheMaxEntries : Z;
  cacheMaxAge : Z;
}.

Record VerifierProperties : Type := {
  userPoolId : option string;
  tokenUse : string;
  verifier_clientId : option string;
  publicKey : string;
}.

(** The claims of a Cognito access token the middleware reads, typed as
    aws-jwt-verify declares them. *)
Record CognitoAccessTokenPayload : Type := {
  client_id : string;
  iss : string;
  exp : Z;
}.

(** The three libraries the middleware calls.  Each may throw.
    [jwksClient options kid] stands for [client.getSigningKey(kid)]
    followed by [key.getPublicKey()]; a verifier resolves with the payload
    (or, as the middleware allows for, with something falsy). *)
Record Cognito : Type := {
  jwt_decode : string -> Settled (option DecodedJwt);
  jwksClient : JwksOptions -> JsValue -> Settled string;
  CognitoJwtVerifier_create :
    VerifierProperties -> Settled (string -> Settled (option CognitoAccessTokenPayload));
}.

Definition access_denied : Exn := Error "Access denied".

Definition fetchJWKS (cfg : Config.Aws) (idp : Cognito) (token : string)
    : Settled string :=
  match jwt_decode idp token with
  | Rejected e => Rejected e
  | Fulfilled None => Rejected access_denied
  | Fulfilled (Some decodedJwt) =>
      let kid := header_kid decodedJwt in
      if negb (truthy kid) then Rejected access_denied
      else
        let client := jwksClient idp {|
          cache := true;
          jwksUri :=
            "https://cognito-idp." +:+ Config.interpolate (Config.awsRegion cfg)
            +:+ ".amazonaws.com/" +:+ Config.interpolate (Config.poolId cfg)
            +:+ "/.well-known/jwks.json";
          cacheMaxEntries := 5;
          cacheMaxAge := 600000;
        |} in
        match client kid with
        | Fulfilled key => Fulfilled key
        | Rejected _ => Rejected access_denied
        end
  end.

Definition verifyToken (cfg : Config.Aws) (idp : Cognito)
    (accessToken : string) (publicKey : string)
    : Settled (option CognitoAccessTokenPayload) :=
  match CognitoJwtVerifier_create idp {|
          userPoolId := Config.poolId cfg;
          tokenUse := "access";
          verifier_clientId := Config.clientId cfg;
          publicKey := publicKey;
        |} with
  | Rejected e => Rejected e
  | Fulfilled verifier =>
      match verifier accessToken with
      | Fulfilled payload => Fulfilled payload
      | Rejected _ => Rejected access_denied
      end
  end.

(** The decode step of [fetchJWKS] fails: [jwt.decode] throws or returns
    [null], or the header has no usable [kid]. *)
Definition malformed (idp : Cognito) (token : string) : bool :=
  match jwt_decode idp token with
  | Fulfilled (Some decodedJwt) => negb (truthy (header_kid decodedJwt))
  | _ => true
  end.

(** Lines 17 to 84: extract the token, decode it, resolve the key, verify
    the signature.  A request that comes through carries a verified
    payload. *)
Definition verified (cfg : Config.Aws) (idp : Cognito) (req : Request)
    : Settled CognitoAccessTokenPayload :=
  match headers req !! "authorization" with
  | None => Rejected access_denied
  | Some token =>
      if String.eqb token "" then Rejected access_denied
      else
        match fetchJWKS cfg idp token with
        | Rejected e => Rejected e
        | Fulfilled publicKey =>
            match verifyToken cfg idp token publicKey with
            | Rejected e => Rejected e
            | Fulfilled None => Rejected access_denied
            | Fulfilled (Some tokenData) =>
                if String.eqb publicKey "" then Rejected access_denied
                else Fulfilled tokenData
            end
        end
  end.

(** Lines 87 to 93: the condition under which [next()] is called. *)
Definition claims_hold (cfg : Config.Aws) (env : Env)
    (tokenData : CognitoAccessTokenPayload) : bool :=
  let currentTimeInSeconds := Math_round_div1000 (Date_getTime env) in
  bool_decide (Some (client_id tokenData) = Config.clientId cfg)
  && String.eqb (iss tokenData) (Config.awsTokenIssuer cfg)
  && (currentTimeInSeconds <=? exp tokenData)%Z.

(** What the middleware does with the request: hand it on, or answer. *)
Inductive Verdict : Type :=
| Next
| Answered (res : Response).

(** The whole body runs inside one [try]; its [catch] ignores the error
    it is given. *)
Definition authenticate (cfg : Config.Aws) (idp : Cognito) (env : Env)
    (req : Request) : Verdict :=
  let attempt : Settled unit :=
    match verified cfg idp req with
    | Rejected e => Rejected e
    | Fulfilled tokenData =>
        if claims_hold cfg env tokenData then Fulfilled tt
        else Rejected access_denied
    end in
  match attempt with
  | Fulfilled _ => Next
  | Rejected _ => Answered {| status := 401; content := Text "Access denied" |}
  end.

End Auth.
Export Auth.

(** ** The routing layer (src/index.ts) *)

Module App.

(** The routes in the order they are registered.  [Undecodable] is a
    request whose route parameter does not decode, [NoRoute] one that no
    route matches. *)
Inductive Route : Type :=
| Health
| PostPatients
| PatchPatient (id : string)
| DeletePatient (id : string)
| GetSearchCondition
| GetSearchAddress
| GetAddress
| GetCondition
| GetPatient (id : string)
| Undecodable
| NoRoute.

(** The application is [express()] with its defaults: a literal segment
    of a route matches whatever its case, and one trailing slash is
    ignored. *)
Definition literal (word s : string) : bool := String.eqb (lower s) word.

Fixpoint trim_slash (p : list string) : list string :=
  match p with
  | [] => []
  | [s] => if String.eqb s "" then [] else [s]
  | s :: rest => s :: trim_slash rest
  end.

(** A parameter such as [:id] matches one non-empty segment. *)
Definition segment (s : string) : bool := negb (String.eqb s "").

(** Express tries the routes in registration order, whatever the method,
    and decodes the parameter of each one whose path matches: a segment
    after [/patients] that does not decode fails the PATCH route's match
    before any later route is tried, and the request is refused.  Among
    the GET routes the literal paths [/patients/address] and
    [/patients/condition] come before [/patients/:id]. *)
Definition route (env : Env) (req : Request) : Route :=
  match trim_slash (path req) with
  | [] => match method req with GET => Health | _ => NoRoute end
  | [p] =>
      if literal "patients" p
      then match method req with POST => PostPatients | _ => NoRoute end
      else NoRoute
  | [p; s] =>
      if literal "patients" p && segment s then
        match decodeURIComponent env s with
        | None => Undecodable
        | Some id =>
            match method req with
            | PATCH => PatchPatient id
            | DELETE => DeletePatient id
            | GET =>
                if literal "address" s then GetAddress
                else if literal "condition" s then GetCondition
                else GetPatient id
            | POST => NoRoute
            end
        end
      else NoRoute
  | [p; s; t] =>
      if literal "patients" p && literal "search" s then
        match method req with
        | GET =>
            if literal "condition" t then GetSearchCondition
            else if literal "address" t then GetSearchAddress
            else NoRoute
        | _ => NoRoute
        end
      else NoRoute
  | _ => NoRoute
  end.

Definition protected (r : Route) : bool :=
  match r with
  | Health | Undecodable | NoRoute => false
  | _ => true
  end.

(** [req.query.name as string]: the cast checks nothing, a missing
    parameter arrives as [undefined]. *)
Definition query_param (req : Request) (name : string) : JsValue :=
  match query req !! name with
  | Some s => JsStr s
  | None => JsUndefined
  end.

(** [try { const result = await m; res.status(code).json(...) }
     catch (err) { res.status(500).send('Something went wrong!') }] *)
Definition handle {A} (m : M A) (code : Z) (envelope : A -> Envelope)
    : World -> Response * World := fun w =>
  match m w with
  | (Fulfilled result, w') => ({| status := code; content := Json (envelope result) |}, w')
  | (Rejected _, w') => ({| status := 500; content := Text "Something went wrong!" |}, w')
  end.

(** The object the create handler builds: a minted id and the four
    destructured body fields. *)
Definition new_patient (env : Env) (body : JsObject) : JsObject :=
  <[ "PatientID" := JsStr (uuidv4 env) ]>
  (<[ "Name" := prop body "Name" ]>
  (<[ "Address" := prop body "Address" ]>
  (<[ "Conditions" := prop body "Conditions" ]>
  (<[ "Allergies" := prop body "Allergies" ]> ∅)))).

Definition post_patients (env : Env) (req : Request) : World -> Response * World :=
  let patientData := new_patient env (body req) in
  handle (createPatient env patientData) 201 (fun result => {|
    statusCode := "CREATED_SUCCESSFULLY";
    data := DataPatient result;
    description := "Patient created successfully" |}).

Definition patch_patient (env : Env) (id : string) (req : Request)
    : World -> Response * World :=
  let updateData := body req in
  handle (updatePatient env id updateData) 200 (fun result => {|
    statusCode := "UPDATED_SUCCESSFULLY";
    data := DataOutput result;
    description := "Patient updated successfully" |}).

Definition delete_patient (env : Env) (id : string) (req : Request)
    : World -> Response * World :=
  handle (deletePatient env id) 200 (fun result => {|
    statusCode := "DELETED_SUCCESSFULLY";
    data := DataOutput result;
    description := "Patient deleted successfully" |}).

Definition get_search_condition (env : Env) (req : Request)
    : World -> Response * World :=
  let condition := query_param req "condition" in
  handle (searchByCondition env condition) 200 (fun result => {|
    statusCode := "SEARCHED_SUCCESSFULLY";
    data := DataHits result;
    description := "Patient searched successfully" |}).

Definition get_search_address (env : Env) (req : Request)
    : World -> Response * World :=
  let address := query_param req "address" in
  handle (searchByAddress env address) 200 (fun result => {|
    statusCode := "SEARCHED_SUCCESSFULLY";
    data := DataHits result;
    description := "Patient searched successfully" |}).

Definition get_address (env : Env) (req : Request) : World -> Response * World :=
  let address := query_param req "address" in
  handle (findPatientsByAddress env address) 200 (fun result => {|
    statusCode := "FETCHED_SUCCESSFULLY";
    data := DataItems (Items result);
    description := "Patient fetched successfully" |}).

Definition get_condition (env : Env) (req : Request) : World -> Response * World :=
  let condition := query_param req "condition" in
  handle (findPatientsByCondition env condition) 200 (fun result => {|
    statusCode := "FETCHED_SUCCESSFULLY";
    data := DataItems (Items result);
    description := "Patient fetched successfully" |}).

Definition get_patient (env : Env) (id : string) (req : Request)
    : World -> Response * World :=
  handle (getPatient env id) 200 (fun result => {|
    statusCode := "FETCHED_SUCCESSFULLY";
    data := DataItem (Item result);
    description := "Patient fetched successfully" |}).

(** The handler registered for a route, behind [authenticate] for all
    but the health check. *)
Definition handler (env : Env) (r : Route) (req : Request)
    : World -> Response * World :=
  match r with
  | Health => fun w => ({| status := 200; content := Text "Patient Management API" |}, w)
  | PostPatients => post_patients env req
  | PatchPatient id => patch_patient env id req
  | DeletePatient id => delete_patient env id req
  | GetSearchCondition => get_search_condition env req
  | GetSearchAddress => get_search_address env req
  | GetAddress => get_address env req
  | GetCondition => get_condition env req
  | GetPatient id => get_patient env id req
  | Undecodable => fun w => ({| status := 400; content := ExpressErrorPage |}, w)
  | NoRoute => fun w => ({| status := 404; content := ExpressNotFound |}, w)
  end.

(** [app.use(express.json())] comes first: a request whose entity it
    refuses is answered by Express's error handler and reaches neither the
    verifier nor a handler. *)
Definition app (cfg : Config.Aws) (idp : Cognito) (env : Env) (req : Request)
    : World -> Response * World := fun w =>
  match payload req with
  | inl e => ({| status := body_error_status e; content := ExpressErrorPage |}, w)
  | inr _ =>
      let r := route env req in
      if protected r then
        match authenticate cfg idp env req with
        | Next => handler env r req w
        | Answered res => (res, w)
        end
      else handler env r req w
  end.

End App.
Export App.

(** ** Sample surroundings *)

Module Sample.

Definition process_env : gmap string string :=
  <[ "AWS_REGION" := "eu-west-1" ]>
  (<[ "AWS_USER_POOL_ID" := "eu-west-1_pool" ]>
  (<[ "AWS_POOL_CLIENT_ID" := "client-7" ]> ∅)).

Definition cfg : Config.Aws := Config.Configs process_env.

Definition good_claims : CognitoAccessTokenPayload := {|
  client_id := "client-7";
  iss := "https://cognito-idp.eu-west-1.amazonaws.com/eu-west-1_pool";
  exp := 2000;
|}.

Definition stale_claims : CognitoAccessTokenPayload := {|
  client_id := "client-7";
  iss := "https://cognito-idp.eu-west-1.amazonaws.com/eu-west-1_pool";
  exp := 1000;
|}.

(** An identity provider that signs under key [k1].  It knows the tokens
    [good] and [stale]; [garbage] does not decode, [foreign] names a key
    it does not publish, anything else fails signature verification. *)
Definition idp : Cognito := {|
  jwt_decode := fun token =>
    if String.eqb token "garbage" then Fulfilled None
    else if String.eqb token "foreign"
    then Fulfilled (Some {| header_kid := JsStr "k9" |})
    else Fulfilled (Some {| header_kid := JsStr "k1" |});
  jwksClient := fun _ kid =>
    match kid with
    | JsStr k =>
        if String.eqb k "k1" then Fulfilled "PEM"
        else Rejected (Error "SigningKeyNotFoundError")
    | _ => Rejected (Error "SigningKeyNotFoundError")
    end;
  CognitoJwtVerifier_create := fun _ => Fulfilled (fun token =>
    if String.eqb token "good" then Fulfilled (Some good_claims)
    else if String.eqb token "stale" then Fulfilled (Some stale_claims)
    else Rejected (Error "JwtInvalidSignatureError"));
|}.

(** Both services up.  The sample paths hold no percent escapes, so
    decoding leaves their segments as they are. *)
Definition env : Env := {|
  dynamo_serves := true;
  page_items := 100;
  opensearch_serves := true;
  opensearch_auto_id := "auto-1";
  opensearch_hits := fun _ _ _ => [];
  uuidv4 := "6f1c";
  Date_getTime := 1500400;
  decodeURIComponent := Some;
|}.

Definition request (m : Method) (p : list string) (token : option string)
    (b : JsObject) : Request := {|
  method := m;
  path := p;
  headers := match token with Some t => {[ "authorization" := t ]} | None => ∅ end;
  query := ∅;
  payload := inr b;
|}.

(** The same surroundings with OpenSearch out of reach. *)
Definition env_index_down : Env := {|
  dynamo_serves := true;
  page_items := 100;
  opensearch_serves := false;
  opensearch_auto_id := "auto-1";
  opensearch_hits := fun _ _ _ => [];
  uuidv4 := "6f1c";
  Date_getTime := 1500400;
  decodeURIComponent := Some;
|}.

Definition jane_fields : JsObject :=
  <[ "Name" := JsStr "Jane" ]>
  (<[ "Address" := JsStr "1 Elm" ]>
  (<[ "Conditions" := JsArr [JsStr "asthma"] ]>
  (<[ "Allergies" := JsArr [] ]> ∅))).

Definition jane : JsObject := <[ "PatientID" := JsStr "6f1c" ]> jane_fields.

Definition empty_world : World := {| store := ∅; index := ∅; calls := [] |}.

Definition world_with_jane : World := {|
  store := {[ "6f1c" := jane ]};
  index := {[ "6f1c" := jane ]};
  calls := [];
|}.

(** Requests against the sample service. *)
Definition create_jane : Request :=
  request POST ["patients"] (Some "good") jane_fields.

Definition create_jane_unsigned : Request :=
  request POST ["patients"] None jane_fields.

Definition patch_jane : Request :=
  request PATCH ["patients"; "6f1c"] (Some "good")
    (<[ "Address" := JsStr "2 Oak" ]> jane_fields).

Definition patch_stranger : Request :=
  request PATCH ["patients"; "77aa"] (Some "good") jane_fields.

Definition get_stranger : Request :=
  request GET ["patients"; "77aa"] (Some "good") ∅.

(** The world after the put of Jane's record alone, and after the
    indexing that follows it has failed. *)
Definition after_put : World :=
  snd (dynamo_send env_index_down (PutCommand jane) empty_world).

Definition after_failed_index : World :=
  snd (indexPatient env_index_down jane after_put).

End Sample.

(** ** Names used in the statements *)

(** The command [updatePatient] sends. *)
Definition update_command (id : string) (updateData : JsObject) : Command :=
  UpdateCommand id
    [ ("Name", prop updateData "Name");
      ("Address", prop updateData "Address");
      ("Conditions", prop updateData "Conditions");
      ("Allergies", prop updateData "Allergies") ].

(** The record an accepted update leaves under [id]: the four fields set
    on what was there, or on a new item holding only the key. *)
Definition updated_item (id : string) (updateData : JsObject) (w : World) : JsObject :=
  <[ "Name" := prop updateData "Name" ]>
  (<[ "Address" := prop updateData "Address" ]>
  (<[ "Conditions" := prop updateData "Conditions" ]>
  (<[ "Allergies" := prop updateData "Allergies" ]>
  (default {[ "PatientID" := JsStr id ]} (store w !! id))))).

Definition access_denied_response : Response :=
  {| status := 401; content := Text "Access denied" |}.

(** Every call an adapter makes is on record: a computation reaches an
    adapter when it adds at least one entry to [calls]. *)
Definition reaches_adapter {A} (m : M A) : Prop :=
  forall w, exists c rest, calls (snd (m w)) = (calls w ++ c :: rest)%list.

(** The store and the index hold the same set of PatientIDs. *)
Definition same_ids (w : World) : Prop := dom (store w) = dom (index w).

(** One successful create or delete, under whatever surroundings. *)
Inductive successful_write : World -> World -> Prop :=
| successful_create env patientData result w w' :
    createPatient env patientData w = (Fulfilled result, w') ->
    successful_write w w'
| successful_delete env id result w w' :
    deletePatient env id w = (Fulfilled result, w') ->
    successful_write w w'.

(** ** The condition scan as the specification words it *)

(** "Records whose Conditions field contains the given string as a
    substring": the string occurs inside the field when that is a string,
    or inside one of its entries when it is a sequence of strings. *)
Definition conditions_has_substring (input : string) (item : JsObject) : bool :=
  match prop item "Conditions" with
  | JsStr s => is_substring input s
  | JsArr elems =>
      existsb (fun e => match e with JsStr c => is_substring input c | _ => false end) elems
  | _ => false
  end.

Definition scan_returns_substring_matches (env : Env) (w : World) (input : string) : Prop :=
  exists out w',
    findPatientsByCondition env (JsStr input) w = (Fulfilled out, w')
    /\ exists items, Items out = Some items
    /\ forall item,
         item ∈ items <->
         (exists id, store w !! id = Some item) /\ conditions_has_substring input item = true.

(** Every record sits under its own [PatientID]. *)
Definition keyed_by_id (m : gmap string JsObject) : Prop :=
  forall k item, m !! k = Some item -> item !! "PatientID" = Some (JsStr k).

(** ** Further sample surroundings *)

Module Scenario.

(** An identity provider that decodes tokens and publishes keys as the
    sample one does, but whose verifier accepts nothing. *)
Definition idp_strict : Cognito := {|
  jwt_decode := jwt_decode Sample.idp;
  jwksClient := jwksClient Sample.idp;
  CognitoJwtVerifier_create := fun _ =>
    Fulfilled (fun _ => Rejected (Error "JwtInvalidSignatureError"));
|}.

(** The same surroundings with DynamoDB out of reach. *)
Definition env_store_down : Env := {|
  dynamo_serves := false;
  page_items := 100;
  opensearch_serves := true;
  opensearch_auto_id := "auto-1";
  opensearch_hits := fun _ _ _ => [];
  uuidv4 := "6f1c";
  Date_getTime := 1500400;
  decodeURIComponent := Some;
|}.

Definition asking (p : list string) (q : gmap string string) : Request := {|
  method := GET;
  path := p;
  headers := {[ "authorization" := "good" ]};
  query := q;
  payload := inr ∅;
|}.


Definition address_unasked : Request := asking ["patients"; "address"] ∅.

(** A create body that leaves out the allergies. *)
Definition create_without_allergies : Request :=
  Sample.request POST ["patients"] (Some "good")
    (<[ "Name" := JsStr "Joe" ]>
    (<[ "Address" := JsStr "3 Ash" ]>
    (<[ "Conditions" := JsArr [] ]> ∅))).

(** Jane's record on its own in the store, with an index that holds
    something else. *)
Definition world_unindexed : World := {|
  store := {[ "6f1c" := Sample.jane ]};
  index := ∅;
  calls := [];
|}.

End Scenario.

(** ** Further sample requests and worlds *)

Module Edge.

(** An update that says only where Jane lives now. *)
Definition only_address : JsObject := {[ "Address" := JsStr "2 Oak" ]}.

Definition patch_jane_address : Request :=
  Sample.request PATCH ["patients"; "6f1c"] (Some "good") only_address.

Definition patch_stranger_address : Request :=
  Sample.request PATCH ["patients"; "77aa"] (Some "good") only_address.

(** A create with no Authorization header whose entity is not JSON. *)
Definition unparsable_create : Request := {|
  method := POST;
  path := ["patients"];
  headers := ∅;
  query := ∅;
  payload := inl EntityParseFailed;
|}.

(** The world after a stranger has been put in the store by an update,
    starting from nothing. *)
Definition world_upserted : World :=
  snd (app Sample.cfg Sample.idp Sample.env Sample.patch_stranger Sample.empty_world).

End Edge.

(** ** Claims as the specification words them *)

(** "After any successful create operation and after any successful delete
    operation, the record store and the search index contain the same set
    of PatientIDs." *)
Definition same_ids_after_every_write : Prop :=
  forall w w', successful_write w w' -> same_ids w'.

(** "For every id and every update input, the update operation overwrites
    the fields of the record with that id": at the least, a field the input
    supplies is then the record's. *)
Definition update_writes_supplied_fields
    (env : Env) (id : string) (updateData : JsObject) (w : World) : Prop :=
  forall a v,
    a ∈ ["Name"; "Address"; "Conditions"; "Allergies"] ->
    updateData !! a = Some v ->
    exists item,
      store (snd (updatePatient env id updateData w)) !! id = Some item
      /\ item !! a = Some v.

(** "If the request's Authorization header is missing, the response is
    401", on every protected route. *)
Definition missing_header_answers_401
    (cfg : Config.Aws) (idp : Cognito) (env : Env) (req : Request) (w : World) : Prop :=
  protected (route env req) = true ->
  headers req !! "authorization" = None ->
  fst (app cfg idp env req w) = {| status := 401; content := Text "Access denied" |}.

(** "For every id not present in the record store, an authenticated GET of
    /patients/:id returns HTTP 200 with the success envelope whose data
    payload is null/empty, not an error response." *)
Definition missing_id_answers_200
    (cfg : Config.Aws) (idp : Cognito) (env : Env) (req : Request) (id : string)
    (w : World) : Prop :=
  route env req = GetPatient id ->
  authenticate cfg idp env req = Next ->
  store w !! id = None ->
  fst (app cfg idp env req w)
  = {| status := 200;
       content := Json {|
         statusCode := "FETCHED_SUCCESSFULLY";
         data := DataItem None;
         description := "Patient fetched successfully" |} |}.

(** "For every id absent from the record store, the update operation does
    not fail: it upserts, and the store afterwards contains a record under
    that id." *)
Definition update_of_absent_id_succeeds
    (env : Env) (id : string) (updateData : JsObject) (w : World) : Prop :=
  store w !! id = None ->
  exists out w',
    updatePatient env id updateData w = (Fulfilled out, w')
    /\ is_Some (store w' !! id).

(** ** The shape of the calls one request makes *)

(** Nothing, one call, or one call to the store followed by one to the
    index. *)
Definition store_then_index (made : list Call) : Prop :=
  match made with
  | [] | [_] | [DynamoSend _; OpenSearchCall _] => True
  | _ => False
  end.

(** * Properties *)

(** ** Strings *)

Lemma prefix_app (sub s : string) :
  String.prefix sub s = true <-> exists post, s = sub +:+ post.
Proof.
  revert s. induction sub as [|c sub IH]; intros s; simpl.
  - split; [intros _; exists s; reflexivity | intros _; by destruct s].
  - destruct s as [|d s]; simpl.
    + split; [done | intros [post H]; discriminate H].
    + destruct (Ascii.ascii_dec c d) as [->|Hne].
      * rewrite IH. split; intros [post H]; exists post.
        -- by rewrite H.
        -- by injection H.
      * split; [done | intros [post H]; injection H; congruence].
Qed.

Lemma is_substring_spec (sub s : string) :
  is_substring sub s = true <-> exists pre post, s = pre +:+ sub +:+ post.
Proof.
  induction s as [|c s IH]; cbn [is_substring].
  - rewrite orb_false_r, prefix_app. split.
    + intros [post H]. by exists "", post.
    + intros [pre [post H]]. destruct pre; [by exists post | discriminate H].
  - rewrite orb_true_iff, prefix_app, IH. split.
    + intros [[post H] | [pre [post H]]].
      * by exists "", post.
      * exists (String c pre), post. simpl. by rewrite H.
    + intros [pre [post H]]. destruct pre as [|d pre]; simpl in H.
      * left. by exists post.
      * right. exists pre, post. by injection H.
Qed.

(** ** The token verifier *)

Lemma claims_hold_spec cfg env tokenData :
  claims_hold cfg env tokenData = true <->
  Some (client_id tokenData) = Config.clientId cfg
  /\ iss tokenData = Config.awsTokenIssuer cfg
  /\ (Math_round_div1000 (Date_getTime env) <= exp tokenData)%Z.
Proof.
  unfold claims_hold.
  rewrite !andb_true_iff, bool_decide_eq_true, String.eqb_eq, Z.leb_le.
  tauto.
Qed.

Lemma authenticate_rejects cfg idp env req res :
  authenticate cfg idp env req = Answered res ->
  res = {| status := 401; content := Text "Access denied" |}.
Proof.
  unfold authenticate.
  destruct (verified cfg idp req) as [tokenData|e]; [|congruence].
  destruct (claims_hold cfg env tokenData); congruence.
Qed.



(** C2.  Any two requests the verifier rejects get the same response,
    status 401 with the body [Access denied], whichever step rejected
    each of them and whatever error that step raised. *)
Theorem rejections_are_identical cfg1 idp1 env1 req1 res1 cfg2 idp2 env2 req2 res2 :
  authenticate cfg1 idp1 env1 req1 = Answered res1 ->
  authenticate cfg2 idp2 env2 req2 = Answered res2 ->
  res1 = res2
  /\ res1 = {| status := 401; content := Text "Access denied" |}.
Proof.
  intros H1%authenticate_rejects H2%authenticate_rejects. by subst.
Qed.

Lemma rejections_are_identical_witness :
  authenticate Sample.cfg Sample.idp Sample.env
    (Sample.request GET ["patients"; "p1"] None ∅)
  = Answered {| status := 401; content := Text "Access denied" |}
  /\ authenticate Sample.cfg Sample.idp Sample.env
       (Sample.request GET ["patients"; "p1"] (Some "stale") ∅)
     = Answered {| status := 401; content := Text "Access denied" |}
  /\ {| status := 401; content := Text "Access denied" |}
     = {| status := 401; content := Text "Access denied" |}.
Proof.
  split; [reflexivity|]. split; [reflexivity|].
  apply (rejections_are_identical
           Sample.cfg Sample.idp Sample.env
           (Sample.request GET ["patients"; "p1"] None ∅)
           {| status := 401; content := Text "Access denied" |}
           Sample.cfg Sample.idp Sample.env
           (Sample.request GET ["patients"; "p1"] (Some "stale") ∅)
           {| status := 401; content := Text "Access denied" |});
    reflexivity.
Defined.

(** The five steps at which the sample identity provider turns a request
    down, and the one request it lets through. *)
Example every_step_rejects_alike :
  let denied := Answered {| status := 401; content := Text "Access denied" |} in
  let ask token :=
    authenticate Sample.cfg Sample.idp Sample.env
      (Sample.request GET ["patients"; "p1"] token ∅) in
  ask None = denied
  /\ ask (Some "garbage") = denied
  /\ ask (Some "foreign") = denied
  /\ ask (Some "forged") = denied
  /\ ask (Some "stale") = denied
  /\ ask (Some "good") = Next.
Proof. repeat split. Qed.

Example sample_steps :
  malformed Sample.idp "garbage" = true
  /\ fetchJWKS Sample.cfg Sample.idp "foreign" = Rejected access_denied
  /\ fetchJWKS Sample.cfg Sample.idp "forged" = Fulfilled "PEM"
  /\ verifyToken Sample.cfg Sample.idp "forged" "PEM" = Rejected access_denied
  /\ verified Sample.cfg Sample.idp (Sample.request GET ["patients"; "p1"] (Some "stale") ∅)
     = Fulfilled Sample.stale_claims
  /\ claims_hold Sample.cfg Sample.env Sample.stale_claims = false.
Proof. repeat split. Qed.

Example Math_round_examples :
  Math_round_div1000 1500400 = 1500
  /\ Math_round_div1000 1500500 = 1501
  /\ Math_round_div1000 1500499 = 1500.
Proof. repeat split. Qed.

Example is_substring_examples :
  is_substring "asth" "asthma" = true
  /\ is_substring "" "asthma" = true
  /\ is_substring "flu" "asthma" = false.
Proof. repeat split. Qed.

(** ** Marshalling and JSON *)

Lemma marshallable_jsonify v : marshallable v = true -> jsonify v = Some v.
Proof.
  revert v. fix IH 1. intros [| |b|n|s|elems|props]; simpl; try done.
  - intros H. do 2 f_equal.
    induction elems as [|e elems IHe]; simpl in *; [done|].
    apply andb_true_iff in H as [He Hrest].
    rewrite (IH e He). simpl. f_equal. by apply IHe.
  - intros H. do 2 f_equal.
    induction props as [|[k e] props IHp]; simpl in *; [done|].
    apply andb_true_iff in H as [He Hrest].
    rewrite (IH e He). simpl. f_equal. by apply IHp.
Qed.

Lemma lookup_drop_undefined (o : JsObject) a :
  drop_undefined o !! a =
    match o !! a with
    | Some v => if is_undefined v then None else Some v
    | None => None
    end.
Proof. unfold drop_undefined. rewrite lookup_omap. by destruct (o !! a). Qed.

Lemma lookup_drop_undefined_Some (o : JsObject) a v :
  drop_undefined o !! a = Some v <-> o !! a = Some v /\ v <> JsUndefined.
Proof.
  rewrite lookup_drop_undefined. destruct (o !! a) as [u|]; [|by split; [|intros []]].
  destruct u; simpl; split; try (intros [= <-]; by split);
    try (by intros [[= <-] ?]); done.
Qed.

Lemma lookup_drop_undefined_prop (o : JsObject) a v :
  drop_undefined o !! a = Some v <-> prop o a = v /\ v <> JsUndefined.
Proof.
  rewrite lookup_drop_undefined_Some. unfold prop.
  destruct (o !! a) as [u|]; simpl.
  - split; [by intros [[= ->] ?] | by intros [-> ?]].
  - split; [by intros [? ?] | by intros [<- ?]].
Qed.

Lemma item_key_drop_undefined item : item_key (drop_undefined item) = item_key item.
Proof.
  unfold item_key. rewrite lookup_drop_undefined.
  by destruct (item !! "PatientID") as [[]|].
Qed.

(** A record the marshaller has taken has the same JSON rendering as what
    was marshalled. *)
Lemma JSON_roundtrip_marshalled item :
  marshallable_map (drop_undefined item) = true ->
  JSON_roundtrip item = drop_undefined item.
Proof.
  intros Hm%bool_decide_eq_true. apply map_eq. intros a.
  unfold JSON_roundtrip. rewrite lookup_omap.
  destruct (drop_undefined item !! a) as [v|] eqn:Hd.
  - pose proof (map_Forall_lookup_1 _ _ _ _ Hm Hd) as Hv. simpl in Hv.
    apply lookup_drop_undefined_Some in Hd as [-> _]. simpl.
    by apply marshallable_jsonify.
  - rewrite lookup_drop_undefined in Hd.
    destruct (item !! a) as [u|]; [|done]. by destruct u.
Qed.

(** Dropping leaves a record without [undefined] attributes as it is. *)
Lemma drop_undefined_defined (o : JsObject) :
  map_Forall (fun _ v => v <> JsUndefined) o -> drop_undefined o = o.
Proof.
  intros Hdef. apply map_eq. intros a. rewrite lookup_drop_undefined.
  destruct (o !! a) as [v|] eqn:Hl; [|done].
  specialize (Hdef a v Hl). by destruct v.
Qed.

(** ** The adapters *)

Lemma item_key_prop item k :
  item_key item = Some k -> prop item "PatientID" = JsStr k /\ k <> "".
Proof.
  unfold item_key, prop. destruct (item !! "PatientID") as [[]|]; try done.
  destruct (String.eqb_spec s ""); [done|]. intros [= ->]. done.
Qed.

Lemma document_id_of_key env item k :
  item_key item = Some k -> OpenSearchClient.document_id env (prop item "PatientID") = k.
Proof.
  intros [-> Hk]%item_key_prop. unfold OpenSearchClient.document_id.
  by destruct (String.eqb_spec k "").
Qed.

Lemma dynamo_send_inv env cmd w r w' :
  dynamo_send env cmd w = (r, w') ->
  match r with
  | Fulfilled out =>
      well_formed cmd = true /\ dynamo_serves env = true
      /\ dynamo_run env cmd (record_call (DynamoSend cmd) w) = (out, w')
  | Rejected _ => w' = record_call (DynamoSend cmd) w
  end.
Proof.
  unfold dynamo_send.
  destruct (well_formed cmd); simpl; [|by intros [= <- <-]].
  destruct (dynamo_serves env); simpl; [|by intros [= <- <-]].
  destruct (dynamo_run env cmd _) as [out w1]. by intros [= <- <-].
Qed.

Lemma put_accepted_key item :
  well_formed (PutCommand item) = true -> exists k, item_key item = Some k.
Proof.
  simpl. intros [[_ H%bool_decide_eq_true]%andb_true_iff _]%andb_true_iff.
  destruct H as [k Hk]. by exists k.
Qed.

Lemma put_accepted_marshalled item :
  well_formed (PutCommand item) = true ->
  marshallable_map (drop_undefined item) = true.
Proof. simpl. by intros [[H _]%andb_true_iff _]%andb_true_iff. Qed.

(** A create that comes back fulfilled has put the record, less what is
    [undefined] in it, and indexed the same, both under the record's own
    [PatientID]. *)
Lemma createPatient_fulfilled env patientData w result w' :
  createPatient env patientData w = (Fulfilled result, w') ->
  result = patientData
  /\ exists id,
       prop patientData "PatientID" = JsStr id
       /\ store w' = <[id := drop_undefined patientData]> (store w)
       /\ index w' = <[id := drop_undefined patientData]> (index w).
Proof.
  unfold createPatient, try_catch, bind.
  destruct (dynamo_send env (PutCommand patientData) w) as [[out|e] w1] eqn:Hput;
    [|by unfold throw].
  apply dynamo_send_inv in Hput as (Hwf & _ & Hrun).
  destruct (put_accepted_key _ Hwf) as [id Hid].
  simpl in Hrun. rewrite Hid in Hrun. injection Hrun as <- <-.
  unfold indexPatient, try_catch, OpenSearchClient.index, throw, ret.
  destruct (opensearch_serves env); [|done].
  rewrite (document_id_of_key _ _ _ Hid).
  rewrite (JSON_roundtrip_marshalled _ (put_accepted_marshalled _ Hwf)).
  intros [= <- <-].
  split; [done|]. exists id. by destruct (item_key_prop _ _ Hid).
Qed.

(** With both services serving, a record the store takes is created. *)
Lemma createPatient_served env patientData w :
  well_formed (PutCommand patientData) = true ->
  dynamo_serves env = true ->
  opensearch_serves env = true ->
  exists w', createPatient env patientData w = (Fulfilled patientData, w').
Proof.
  intros Hwf Hd Ho.
  unfold createPatient, try_catch, bind, dynamo_send. rewrite Hwf, Hd. simpl.
  destruct (put_accepted_key _ Hwf) as [id ->].
  unfold indexPatient, try_catch, OpenSearchClient.index, ret. rewrite Ho.
  by eexists.
Qed.

(** A delete that comes back fulfilled has removed the key from the store
    and the document of the same id from the index. *)
Lemma deletePatient_fulfilled env id w result w' :
  deletePatient env id w = (Fulfilled result, w') ->
  store w' = delete id (store w) /\ index w' = delete id (index w).
Proof.
  unfold deletePatient, try_catch, bind.
  destruct (dynamo_send env (DeleteCommand id) w) as [[out|e] w1] eqn:Hdel;
    [|by unfold throw].
  apply dynamo_send_inv in Hdel as (_ & _ & Hrun).
  simpl in Hrun. injection Hrun as <- <-.
  unfold removePatientFromOpenSearch, try_catch, OpenSearchClient.delete, throw, ret.
  destruct (opensearch_serves env); [|done]. simpl.
  destruct (index w !! id); [|done]. by intros [= <- <-].
Qed.

(** With both services serving, an indexed id is deleted. *)
Lemma deletePatient_served env id w :
  id <> "" ->
  dynamo_serves env = true ->
  opensearch_serves env = true ->
  is_Some (index w !! id) ->
  exists result w', deletePatient env id w = (Fulfilled result, w').
Proof.
  intros Hid Hd Ho [doc Hdoc].
  unfold deletePatient, try_catch, bind, dynamo_send. simpl.
  unfold valid_key. destruct (String.eqb_spec id ""); [done|]. simpl.
  rewrite Hd. simpl.
  unfold removePatientFromOpenSearch, try_catch, OpenSearchClient.delete, ret.
  rewrite Ho. simpl. rewrite Hdoc. by eexists _, _.
Qed.

(** C3, as amended.  Starting from a store and an index that hold the
    same set of PatientIDs: a fulfilled [createPatient] has put the record
    it was given (less what is [undefined] in it) under that record's
    PatientID in the store and the same in the index, and the two hold the
    same set of ids again; a fulfilled [deletePatient] has taken the id it
    was given out of both, and the two hold the same set again.  Both do
    come back fulfilled when the two services serve the request and the
    record is one the store takes, respectively the id is indexed. *)
Theorem create_delete_keep_same_ids env w :
  dom (store w) = dom (index w) ->
  (forall patientData,
     (forall result w',
        createPatient env patientData w = (Fulfilled result, w') ->
        exists id,
          patientData !! "PatientID" = Some (JsStr id)
          /\ store w' = <[id := drop_undefined patientData]> (store w)
          /\ index w' = <[id := drop_undefined patientData]> (index w)
          /\ dom (store w') = dom (index w'))
     /\ (well_formed (PutCommand patientData) = true ->
         dynamo_serves env = true ->
         opensearch_serves env = true ->
         exists w', createPatient env patientData w = (Fulfilled patientData, w')))
  /\ (forall id,
        (forall result w',
           deletePatient env id w = (Fulfilled result, w') ->
           store w' = delete id (store w)
           /\ index w' = delete id (index w)
           /\ dom (store w') = dom (index w'))
        /\ (id <> "" ->
            dynamo_serves env = true ->
            opensearch_serves env = true ->
            is_Some (index w !! id) ->
            exists result w', deletePatient env id w = (Fulfilled result, w'))).
Proof.
  intros Hdom. split.
  - intros patientData. split; [|apply createPatient_served].
    intros result w' H.
    apply createPatient_fulfilled in H as (_ & id & Hid & Hs & Hi).
    exists id. split.
    { unfold prop in Hid. destruct (patientData !! "PatientID") as [v|]; [|done].
      simpl in Hid. by rewrite Hid. }
    split; [done|]. split; [done|].
    rewrite Hs, Hi, !dom_insert_L. by rewrite Hdom.
  - intros id. split; [|apply deletePatient_served].
    intros result w' H.
    apply deletePatient_fulfilled in H as (Hs & Hi).
    split; [done|]. split; [done|].
    rewrite Hs, Hi, !dom_delete_L. by rewrite Hdom.
Qed.

(** C3, as stated, fails: an update of an id the store does not hold is
    answered 200 and leaves a record in the store that the index does not
    have; a create fulfilled after that ends with the two sets apart. *)
Lemma same_ids_fail_after_an_upsert : ~ same_ids_after_every_write.
Proof.
  intros Hclaim.
  assert (successful_write Edge.world_upserted
            (snd (createPatient Sample.env Sample.jane Edge.world_upserted))) as Hw.
  { apply (successful_create Sample.env Sample.jane Sample.jane).
    vm_compute. reflexivity. }
  apply Hclaim in Hw. unfold same_ids in Hw.
  assert ("77aa" ∈ dom (store (snd (createPatient Sample.env Sample.jane
                                     Edge.world_upserted)))) as Hin.
  { apply elem_of_dom. vm_compute. by eexists. }
  rewrite Hw in Hin. apply elem_of_dom in Hin as [doc Hdoc].
  vm_compute in Hdoc. discriminate Hdoc.
Qed.

(** The world of that counterexample is the one a PATCH answered 200
    leaves behind. *)
Example upsert_is_answered_200 :
  status (fst (app Sample.cfg Sample.idp Sample.env Sample.patch_stranger
                 Sample.empty_world)) = 200.
Proof. reflexivity. Qed.

(** Any run of successful creates and deletes, started with store and
    index in step, ends with them in step. *)
Lemma same_ids_along_successful_writes w w' :
  same_ids w -> rtc successful_write w w' -> same_ids w'.
Proof.
  intros Hw Hrun. induction Hrun as [w | w w1 w' Hstep _ IH]; [done|].
  apply IH. clear IH. unfold same_ids in *.
  destruct Hstep as [env patientData result w w1 H | env id result w w1 H].
  - apply createPatient_fulfilled in H as (_ & id & _ & -> & ->).
    by rewrite !dom_insert_L, Hw.
  - apply deletePatient_fulfilled in H as (-> & ->).
    by rewrite !dom_delete_L, Hw.
Qed.

(** C4.  When the put of a create has succeeded and the indexing after it
    fails, [createPatient] reports an error and the record the put wrote is
    still in the store; when the store delete of a delete has succeeded and
    the index removal after it fails, [deletePatient] reports an error and
    the key stays deleted.  Nothing is rolled back. *)
Theorem no_rollback_after_index_failure env w :
  (forall patientData out w1 e w2,
     dynamo_send env (PutCommand patientData) w = (Fulfilled out, w1) ->
     indexPatient env patientData w1 = (Rejected e, w2) ->
     createPatient env patientData w
       = (Rejected (Error "Error occurred while creating the patient"), w2)
     /\ exists id,
          patientData !! "PatientID" = Some (JsStr id)
          /\ store w1 !! id = Some (drop_undefined patientData)
          /\ store w2 !! id = Some (drop_undefined patientData))
  /\ (forall id out w1 e w2,
        dynamo_send env (DeleteCommand id) w = (Fulfilled out, w1) ->
        removePatientFromOpenSearch env id w1 = (Rejected e, w2) ->
        deletePatient env id w
          = (Rejected (Error "Error occurred while deleting the patient"), w2)
        /\ store w1 !! id = None
        /\ store w2 !! id = None).
Proof.
  split.
  - intros patientData out w1 e w2 Hput Hidx.
    split.
    + unfold createPatient, try_catch, bind. by rewrite Hput, Hidx.
    + apply dynamo_send_inv in Hput as (Hwf & _ & Hrun).
      destruct (put_accepted_key _ Hwf) as [id Hid].
      simpl in Hrun. rewrite Hid in Hrun. injection Hrun as <- <-.
      exists id.
      assert (store w2 = <[id := drop_undefined patientData]> (store w)) as ->.
      { revert Hidx.
        unfold indexPatient, try_catch, OpenSearchClient.index, throw.
        destruct (opensearch_serves env); [done|]. by intros [= <- <-]. }
      destruct (item_key_prop _ _ Hid) as [Hp _]. unfold prop in Hp.
      repeat split; [|apply lookup_insert_eq..].
      by destruct (patientData !! "PatientID"); simplify_eq/=.
  - intros id out w1 e w2 Hdel Hrm.
    split.
    + unfold deletePatient, try_catch, bind. by rewrite Hdel, Hrm.
    + apply dynamo_send_inv in Hdel as (_ & _ & Hrun).
      simpl in Hrun. injection Hrun as <- <-.
      assert (store w2 = delete id (store w)) as ->.
      { revert Hrm.
        unfold removePatientFromOpenSearch, try_catch, OpenSearchClient.delete, throw.
        destruct (opensearch_serves env); simpl.
        - destruct (index w !! id); [done|]. by intros [= <- <-].
        - by intros [= <- <-]. }
      split; apply lookup_delete_eq.
Qed.

(** ** Updates *)

Lemma updatePatient_inv env id updateData w r w' :
  updatePatient env id updateData w = (r, w') ->
  index w' = index w
  /\ calls w' = (calls w ++ [DynamoSend (update_command id updateData)])%list
  /\ match r with
     | Fulfilled _ => store w' = <[id := updated_item id updateData w]> (store w)
     | Rejected e =>
         store w' = store w /\ e = Error "Error occurred while updating the patient"
     end.
Proof.
  unfold updatePatient, try_catch. fold (update_command id updateData).
  destruct (dynamo_send env (update_command id updateData) w) as [[out|e] w1] eqn:Hsend.
  - apply dynamo_send_inv in Hsend as (_ & _ & Hrun).
    simpl in Hrun. injection Hrun as <- <-. by intros [= <- <-].
  - apply dynamo_send_inv in Hsend as ->. unfold throw. by intros [= <- <-].
Qed.

(** An input the store takes: every one of the four fields is there, and
    the address is a non-empty string. *)
Lemma update_command_well_formed id updateData :
  id <> "" ->
  Forall (fun f => marshallable (prop updateData f) = true)
    ["Name"; "Address"; "Conditions"; "Allergies"] ->
  index_key_ok (prop updateData "Address") = true ->
  well_formed (update_command id updateData) = true.
Proof.
  intros Hid Hm Ha. simpl.
  rewrite !Forall_cons in Hm. destruct Hm as (-> & -> & -> & -> & _).
  rewrite Ha. unfold valid_key. by destruct (String.eqb_spec id "").
Qed.

Lemma updatePatient_served env id updateData w :
  dynamo_serves env = true ->
  well_formed (update_command id updateData) = true ->
  exists w', updatePatient env id updateData w = (Fulfilled empty_output, w').
Proof.
  intros Hserves Hwf. unfold updatePatient, try_catch, dynamo_send.
  unfold update_command in Hwf. rewrite Hwf, Hserves. simpl. by eexists.
Qed.

Lemma updated_item_fields id updateData w :
  updated_item id updateData w !! "Name" = Some (prop updateData "Name")
  /\ updated_item id updateData w !! "Address" = Some (prop updateData "Address")
  /\ updated_item id updateData w !! "Conditions" = Some (prop updateData "Conditions")
  /\ updated_item id updateData w !! "Allergies" = Some (prop updateData "Allergies").
Proof.
  unfold updated_item.
  repeat split;
    repeat first [apply lookup_insert_eq | rewrite lookup_insert_ne by discriminate].
Qed.

(** C5, as amended.  Whatever the id and the update input, [updatePatient]
    sends one [UpdateCommand] and nothing to the index, and leaves the index
    and every other record of the store as they were; the PATCH handler
    does to the services what [updatePatient] does with the request body.
    When the store serves the request and the input supplies all four
    fields, the address a non-empty string, the update is fulfilled.  A
    fulfilled update has set the record's Name, Address, Conditions and
    Allergies from the input and kept every other attribute, PatientID
    included, and the handler answers 200; an update that is not fulfilled
    has changed nothing, and the handler answers 500. *)
Theorem update_overwrites_four_fields_only env id req w :
  index (snd (updatePatient env id (body req) w)) = index w
  /\ calls (snd (updatePatient env id (body req) w))
     = (calls w ++ [DynamoSend (update_command id (body req))])%list
  /\ (forall id', id' <> id ->
        store (snd (updatePatient env id (body req) w)) !! id' = store w !! id')
  /\ snd (patch_patient env id req w) = snd (updatePatient env id (body req) w)
  /\ (dynamo_serves env = true ->
      id <> "" ->
      Forall (fun f => marshallable (prop (body req) f) = true)
        ["Name"; "Address"; "Conditions"; "Allergies"] ->
      index_key_ok (prop (body req) "Address") = true ->
      fst (updatePatient env id (body req) w) = Fulfilled empty_output)
  /\ (forall out,
        fst (updatePatient env id (body req) w) = Fulfilled out ->
        exists item',
          store (snd (updatePatient env id (body req) w)) !! id = Some item'
          /\ item' !! "Name" = Some (prop (body req) "Name")
          /\ item' !! "Address" = Some (prop (body req) "Address")
          /\ item' !! "Conditions" = Some (prop (body req) "Conditions")
          /\ item' !! "Allergies" = Some (prop (body req) "Allergies")
          /\ forall item, store w !! id = Some item ->
               item' !! "PatientID" = item !! "PatientID"
               /\ forall a, a <> "Name" -> a <> "Address" ->
                    a <> "Conditions" -> a <> "Allergies" ->
                    item' !! a = item !! a)
  /\ (forall out,
        fst (updatePatient env id (body req) w) = Fulfilled out ->
        fst (patch_patient env id req w)
        = {| status := 200;
             content := Json {|
               statusCode := "UPDATED_SUCCESSFULLY";
               data := DataOutput out;
               description := "Patient updated successfully" |} |})
  /\ (forall e,
        fst (updatePatient env id (body req) w) = Rejected e ->
        store (snd (updatePatient env id (body req) w)) = store w
        /\ fst (patch_patient env id req w)
           = {| status := 500; content := Text "Something went wrong!" |}).
Proof.
  destruct (updatePatient env id (body req) w) as [r w'] eqn:Hup.
  pose proof (updatePatient_inv _ _ _ _ _ _ Hup) as (Hi & Hc & Hs). simpl.
  split; [done|]. split; [done|]. split.
  { intros id' Hne. destruct r as [out|e].
    - rewrite Hs. by apply lookup_insert_ne.
    - by destruct Hs as [-> _]. }
  split.
  { unfold patch_patient, handle. rewrite Hup. by destruct r. }
  split.
  { intros Hserves Hid Hm Ha.
    destruct (updatePatient_served env id (body req) w Hserves
                (update_command_well_formed _ _ Hid Hm Ha)) as [w2 Hok].
    rewrite Hup in Hok. by injection Hok as -> _. }
  split; [|split].
  - intros out ->. exists (updated_item id (body req) w). rewrite Hs.
    split; [apply lookup_insert_eq|].
    destruct (updated_item_fields id (body req) w) as (Hn & Ha & Hco & Hal).
    split; [done|]. split; [done|]. split; [done|]. split; [done|].
    intros item Hitem. unfold updated_item. rewrite Hitem. simpl. split.
    + by do 4 (rewrite lookup_insert_ne by discriminate).
    + intros a ? ? ? ?. by do 4 (rewrite lookup_insert_ne by congruence).
  - intros out ->. unfold patch_patient, handle. by rewrite Hup.
  - intros e ->. split; [by destruct Hs|].
    unfold patch_patient, handle. by rewrite Hup.
Qed.

(** C5, as stated, fails: an update of Jane's record that supplies only a
    new address is refused, and her record still has the old one. *)
Lemma partial_update_writes_nothing :
  ~ update_writes_supplied_fields Sample.env "6f1c" Edge.only_address
      Sample.world_with_jane.
Proof.
  intros Hclaim.
  destruct (Hclaim "Address" (JsStr "2 Oak")) as (item & Hitem & Haddress);
    [repeat constructor | reflexivity |].
  vm_compute in Hitem. injection Hitem as <-.
  vm_compute in Haddress. discriminate Haddress.
Qed.

(** C10, as amended.  Updating an id the store does not hold is not an
    error: given a store that serves the request and an input that supplies
    all four fields, the address a non-empty string, [updatePatient] is
    fulfilled, the store then holds under that id a record made of the id
    and the four input fields, and the PATCH handler answers 200 with the
    success envelope. *)
Theorem update_of_absent_id_upserts env id req w :
  store w !! id = None ->
  id <> "" ->
  dynamo_serves env = true ->
  Forall (fun f => marshallable (prop (body req) f) = true)
    ["Name"; "Address"; "Conditions"; "Allergies"] ->
  index_key_ok (prop (body req) "Address") = true ->
  exists out w',
    updatePatient env id (body req) w = (Fulfilled out, w')
    /\ store w' !! id =
         Some (<[ "Name" := prop (body req) "Name" ]>
              (<[ "Address" := prop (body req) "Address" ]>
              (<[ "Conditions" := prop (body req) "Conditions" ]>
              (<[ "Allergies" := prop (body req) "Allergies" ]>
              {[ "PatientID" := JsStr id ]}))))
    /\ patch_patient env id req w =
         ({| status := 200;
             content := Json {|
               statusCode := "UPDATED_SUCCESSFULLY";
               data := DataOutput out;
               description := "Patient updated successfully" |} |}, w').
Proof.
  intros Hnone Hid Hserves Hm Ha.
  destruct (updatePatient_served env id (body req) w Hserves
              (update_command_well_formed _ _ Hid Hm Ha)) as [w' Hup].
  exists empty_output, w'. split; [done|].
  pose proof (updatePatient_inv _ _ _ _ _ _ Hup) as (_ & _ & Hs).
  split.
  - rewrite Hs, lookup_insert_eq. unfold updated_item. by rewrite Hnone.
  - unfold patch_patient, handle. by rewrite Hup.
Qed.

(** C10, as stated, fails: an update of an id the store does not hold that
    supplies only an address is refused, and the store still has no record
    under that id. *)
Lemma partial_update_of_absent_id_fails :
  ~ update_of_absent_id_succeeds Sample.env "77aa" Edge.only_address
      Sample.world_with_jane.
Proof.
  intros Hclaim. destruct Hclaim as (out & w' & Hup & _); [reflexivity|].
  vm_compute in Hup. discriminate Hup.
Qed.

(** ** The condition scan *)

Lemma dynamo_contains_string attribute input :
  dynamo_contains attribute (JsStr input) = true <->
  match attribute with
  | JsStr s => exists pre post, s = pre +:+ input +:+ post
  | JsArr elems => JsStr input ∈ elems
  | _ => False
  end.
Proof.
  destruct attribute; simpl; try (split; [discriminate | tauto]).
  - apply is_substring_spec.
  - rewrite existsb_exists. split.
    + intros (e & Hin & He). destruct e; try discriminate.
      apply String.eqb_eq in He as ->. by apply list_elem_of_In.
    + intros Hin. exists (JsStr input). split; [by apply list_elem_of_In|].
      apply String.eqb_refl.
Qed.

Lemma table_items_length w : length (table_items w) = size (store w).
Proof. unfold table_items. by rewrite length_fmap, length_map_to_list. Qed.

Lemma elem_of_table_items w item :
  item ∈ table_items w <-> exists id, store w !! id = Some item.
Proof.
  unfold table_items. rewrite list_elem_of_fmap. split.
  - intros ([id item'] & -> & Hin). exists id. by apply elem_of_map_to_list.
  - intros [id Hid]. exists (id, item). split; [done|]. by apply elem_of_map_to_list.
Qed.

(** C6, as amended.  With a store that serves the request and a table
    that one scan request reads whole, [findPatientsByCondition] on a
    string returns exactly the records whose Conditions attribute is a
    string having the input as a substring, or a list having the input as
    one of its elements; store and index are left as they were. *)
Theorem scan_returns_contains_matches env w input :
  dynamo_serves env = true ->
  (size (store w) <= page_items env)%nat ->
  exists items w',
    findPatientsByCondition env (JsStr input) w
      = (Fulfilled {| Item := None; Items := Some items; Attributes := None |}, w')
    /\ store w' = store w
    /\ index w' = index w
    /\ forall item,
         item ∈ items <->
         (exists id, store w !! id = Some item)
         /\ match prop item "Conditions" with
            | JsStr s => exists pre post, s = pre +:+ input +:+ post
            | JsArr elems => JsStr input ∈ elems
            | _ => False
            end.
Proof.
  intros Hserves Hpage.
  unfold findPatientsByCondition, try_catch, dynamo_send. simpl.
  rewrite Hserves. simpl. eexists _, _. split; [reflexivity|].
  split; [done|]. split; [done|]. intros item.
  rewrite <- dynamo_contains_string, list_elem_of_In, filter_In, <- list_elem_of_In.
  rewrite firstn_all2 by (rewrite table_items_length; simpl; lia).
  by rewrite (elem_of_table_items (record_call _ w)).
Qed.

(** C6, as stated, fails: Jane's record lists the condition [asthma], which
    has [asth] as a substring, yet the scan for [asth] returns nothing,
    because [contains] on a list compares whole elements. *)
Lemma scan_misses_substring_of_list_entry :
  ~ scan_returns_substring_matches Sample.env Sample.world_with_jane "asth".
Proof.
  intros (out & w' & Hscan & items & Hitems & Hiff).
  assert (fst (findPatientsByCondition Sample.env (JsStr "asth") Sample.world_with_jane)
          = Fulfilled {| Item := None; Items := Some []; Attributes := None |}) as Hrun
    by (vm_compute; reflexivity).
  rewrite Hscan in Hrun. simpl in Hrun. injection Hrun as ->.
  simpl in Hitems. injection Hitems as <-.
  destruct (Hiff Sample.jane) as [_ Hback].
  assert (Sample.jane ∈ @nil JsObject) as Hin.
  { apply Hback. split; [by exists "6f1c" | by vm_compute]. }
  by apply not_elem_of_nil in Hin.
Qed.

(** ** The routing layer *)

Lemma malformed_fetchJWKS cfg idp token :
  malformed idp token = true ->
  exists e, fetchJWKS cfg idp token = Rejected e.
Proof.
  unfold malformed, fetchJWKS.
  destruct (jwt_decode idp token) as [[d|]|e]; intros H; eauto.
  rewrite H. eauto.
Qed.

Lemma missing_or_malformed_rejected cfg idp env req :
  headers req !! "authorization" = None
  \/ headers req !! "authorization" = Some ""
  \/ (exists token, headers req !! "authorization" = Some token
        /\ malformed idp token = true) ->
  authenticate cfg idp env req = Answered access_denied_response.
Proof.
  unfold authenticate, verified.
  intros [-> | [-> | (token & -> & Hm)]]; try done.
  destruct (String.eqb token ""); [done|].
  by destruct (malformed_fetchJWKS cfg idp token Hm) as [e ->].
Qed.

Lemma handle_calls {A} (m : M A) code envelope w :
  calls (snd (handle m code envelope w)) = calls (snd (m w)).
Proof. unfold handle. by destruct (m w) as [[a|e] w']. Qed.

Lemma dynamo_run_calls env cmd w :
  calls (snd (dynamo_run env cmd w)) = calls w.
Proof.
  destruct cmd as [k|item|k sets|k|i a v|a v]; simpl; try done.
  by destruct (item_key item).
Qed.

Lemma dynamo_send_calls env cmd w :
  calls (snd (dynamo_send env cmd w)) = (calls w ++ [DynamoSend cmd])%list.
Proof.
  unfold dynamo_send.
  destruct (well_formed cmd); simpl; [|done].
  destruct (dynamo_serves env); simpl; [|done].
  pose proof (dynamo_run_calls env cmd (record_call (DynamoSend cmd) w)) as H.
  by destruct (dynamo_run env cmd _).
Qed.

Lemma reaches_try_catch_throw {A} (m : M A) e :
  reaches_adapter m -> reaches_adapter (try_catch m (fun _ => throw e)).
Proof.
  intros Hm w. destruct (Hm w) as (c & rest & H). exists c, rest.
  unfold try_catch, throw. by destruct (m w) as [[a|e'] w'].
Qed.

Lemma reaches_dynamo_send env cmd : reaches_adapter (dynamo_send env cmd).
Proof. intros w. exists (DynamoSend cmd), []. apply dynamo_send_calls. Qed.

Lemma reaches_bind_first {A B} (m : M A) (k : A -> M B) :
  reaches_adapter m ->
  (forall a w, exists rest, calls (snd (k a w)) = (calls w ++ rest)%list) ->
  reaches_adapter (bind m k).
Proof.
  intros Hm Hk w. destruct (Hm w) as (c & rest & H). unfold bind.
  destruct (m w) as [[a|e] w1]; simpl in *.
  - destruct (Hk a w1) as [rest' ->]. rewrite H. exists c, (rest ++ rest')%list.
    by rewrite <- app_assoc.
  - by exists c, rest.
Qed.

Lemma index_step_appends env patientData (result : JsObject) w :
  exists rest,
    calls (snd ((const _ := await indexPatient env patientData in ret result) w))
    = (calls w ++ rest)%list.
Proof.
  unfold bind, indexPatient, try_catch, OpenSearchClient.index, throw, ret.
  destruct (opensearch_serves env); simpl; by eexists.
Qed.

Lemma remove_step_appends env id (result : CommandOutput) w :
  exists rest,
    calls (snd ((const _ := await removePatientFromOpenSearch env id in ret result) w))
    = (calls w ++ rest)%list.
Proof.
  unfold bind, removePatientFromOpenSearch, try_catch, OpenSearchClient.delete, throw, ret.
  destruct (opensearch_serves env); simpl; [|by eexists].
  destruct (index w !! id); simpl; by eexists.
Qed.

Lemma reaches_search env field text :
  reaches_adapter (OpenSearchClient.search env field text).
Proof.
  intros w. exists (OpenSearchCall (OsSearch field text)), [].
  unfold OpenSearchClient.search.
  destruct (opensearch_serves env); [|done]. by destruct text.
Qed.

(** Each handler behind the verifier calls the store or the index. *)
Lemma handler_reaches_adapter env r req w :
  protected r = true ->
  exists c rest, calls (snd (handler env r req w)) = (calls w ++ c :: rest)%list.
Proof.
  destruct r; try discriminate; intros _; simpl;
    unfold post_patients, patch_patient, delete_patient, get_search_condition,
      get_search_address, get_address, get_condition, get_patient;
    rewrite handle_calls;
    revert w; change (reaches_adapter ?m) with (reaches_adapter m).
  - apply reaches_try_catch_throw, reaches_bind_first; [apply reaches_dynamo_send|].
    intros _ w. apply index_step_appends.
  - apply reaches_try_catch_throw, reaches_dynamo_send.
  - apply reaches_try_catch_throw, reaches_bind_first; [apply reaches_dynamo_send|].
    intros out w. apply remove_step_appends.
  - apply reaches_try_catch_throw, reaches_search.
  - apply reaches_try_catch_throw, reaches_search.
  - apply reaches_try_catch_throw, reaches_dynamo_send.
  - apply reaches_try_catch_throw, reaches_dynamo_send.
  - apply reaches_dynamo_send.
Qed.

Lemma unprotected_handler_is_pure env r req w :
  protected r = false -> snd (handler env r req w) = w.
Proof. by destruct r. Qed.

(** C7, as amended.  On every route behind the verifier, a request whose
    Authorization header is missing or empty, or whose token does not
    decode to a header with a key id, leaves the services and the record of
    calls made to them exactly as they were; it is answered 401, unless
    [express.json()] has refused its entity, in which case the answer is
    Express's error page with the status of that error.  Whatever the
    request, nothing is changed and no adapter is called unless its entity
    was taken, its route is one behind the verifier and the verifier has
    accepted; and then the handler does call an adapter. *)
Theorem unauthenticated_request_reaches_no_adapter cfg idp env req w :
  (protected (route env req) = true ->
   headers req !! "authorization" = None
   \/ headers req !! "authorization" = Some ""
   \/ (exists token, headers req !! "authorization" = Some token
          /\ malformed idp token = true) ->
   snd (app cfg idp env req w) = w
   /\ (forall parsed, payload req = inr parsed ->
         fst (app cfg idp env req w)
         = {| status := 401; content := Text "Access denied" |})
   /\ (forall e, payload req = inl e ->
         fst (app cfg idp env req w)
         = {| status := body_error_status e; content := ExpressErrorPage |}))
  /\ (authenticate cfg idp env req <> Next -> snd (app cfg idp env req w) = w)
  /\ (snd (app cfg idp env req w) <> w ->
      protected (route env req) = true
      /\ authenticate cfg idp env req = Next
      /\ exists parsed, payload req = inr parsed)
  /\ (protected (route env req) = true ->
      authenticate cfg idp env req = Next ->
      forall parsed, payload req = inr parsed ->
      exists c rest,
        calls (snd (app cfg idp env req w)) = (calls w ++ c :: rest)%list).
Proof.
  unfold app. split; [|split; [|split]].
  - intros Hp H. rewrite Hp.
    rewrite (missing_or_malformed_rejected cfg idp env req H).
    destruct (payload req) as [e|parsed]; simpl.
    + split; [done|]. split; [done|]. by intros e' [= <-].
    + split; [done|]. split; [done|]. done.
  - destruct (payload req); [done|].
    destruct (protected (route env req)) eqn:Hp.
    + by destruct (authenticate cfg idp env req).
    + intros _. by apply unprotected_handler_is_pure.
  - destruct (payload req) as [e|parsed]; [done|].
    destruct (protected (route env req)) eqn:Hp.
    + destruct (authenticate cfg idp env req); [|done]. intros _. by eauto.
    + intros H. destruct H. by apply unprotected_handler_is_pure.
  - intros Hp -> parsed ->. rewrite Hp. by apply handler_reaches_adapter.
Qed.

(** C7, as stated, fails: a create without an Authorization header whose
    entity is not JSON is answered 400 by Express, not 401. *)
Lemma unparsable_entity_is_answered_before_the_verifier :
  ~ missing_header_answers_401 Sample.cfg Sample.idp Sample.env
      Edge.unparsable_create Sample.empty_world.
Proof.
  intros Hclaim.
  assert (fst (app Sample.cfg Sample.idp Sample.env Edge.unparsable_create
                 Sample.empty_world)
          = {| status := 401; content := Text "Access denied" |}) as H
    by (apply Hclaim; reflexivity).
  vm_compute in H. discriminate H.
Qed.

(** How a two-segment path is routed. *)
Lemma route_GetPatient_inv env req id :
  route env req = GetPatient id ->
  method req = GET
  /\ exists p s,
       trim_slash (path req) = [p; s]
       /\ literal "patients" p = true
       /\ s <> ""
       /\ decodeURIComponent env s = Some id
       /\ literal "address" s = false
       /\ literal "condition" s = false.
Proof.
  unfold route.
  destruct (trim_slash (path req)) as [|p [|s [|t [|u l]]]]; try done.
  - by destruct (method req).
  - destruct (literal "patients" p); [|done]. by destruct (method req).
  - destruct (literal "patients" p) eqn:Hp; [|done]. unfold segment.
    destruct (String.eqb_spec s "") as [|Hs]; [done|]. simpl.
    destruct (decodeURIComponent env s) as [id'|] eqn:Hd; [|done].
    destruct (method req); try done.
    destruct (literal "address" s) eqn:Ha; [done|].
    destruct (literal "condition" s) eqn:Hc; [done|].
    intros [= ->]. split; [done|]. by exists p, s.
  - destruct (literal "patients" p && literal "search" s); [|done].
    destruct (method req); try done.
    destruct (literal "condition" t); [done|]. by destruct (literal "address" t).
Qed.

(** C8, as amended.  Take a GET of [/patients/:id] that the verifier has
    accepted, whose entity [express.json()] has taken, for a non-empty id.
    When the store serves the request it is answered 200 with the success
    envelope, whose data is the record under that id, none when the store
    does not hold the id: the status is 200 whether or not the id is there.
    When the store does not serve the request it is answered 500 with the
    generic error. *)
Theorem get_of_missing_id_answers_200 cfg idp env req id w :
  route env req = GetPatient id ->
  (exists parsed, payload req = inr parsed) ->
  authenticate cfg idp env req = Next ->
  id <> "" ->
  (dynamo_serves env = true ->
   (store w !! id = None ->
    fst (app cfg idp env req w) =
      {| status := 200;
         content := Json {|
           statusCode := "FETCHED_SUCCESSFULLY";
           data := DataItem None;
           description := "Patient fetched successfully" |} |})
   /\ fst (app cfg idp env req w) =
        {| status := 200;
           content := Json {|
             statusCode := "FETCHED_SUCCESSFULLY";
             data := DataItem (store w !! id);
             description := "Patient fetched successfully" |} |})
  /\ (dynamo_serves env = false ->
      fst (app cfg idp env req w)
      = {| status := 500; content := Text "Something went wrong!" |}).
Proof.
  intros Hr [parsed Hparsed] Ha Hid.
  unfold app. rewrite Hparsed, Hr, Ha. simpl.
  unfold get_patient, handle, getPatient, dynamo_send. simpl.
  unfold valid_key. destruct (String.eqb_spec id ""); [done|]. simpl.
  split; intros ->; simpl; [|done].
  split; [by intros ->|done].
Qed.

(** C8, as stated, fails: with the store out of reach, an accepted GET for
    an id the store does not hold is answered 500. *)
Lemma missing_id_with_store_down_is_500 :
  ~ missing_id_answers_200 Sample.cfg Sample.idp Scenario.env_store_down
      Sample.get_stranger "77aa" Sample.world_with_jane.
Proof.
  intros Hclaim.
  assert (fst (app Sample.cfg Sample.idp Scenario.env_store_down Sample.get_stranger
                 Sample.world_with_jane)
          = {| status := 200;
               content := Json {|
                 statusCode := "FETCHED_SUCCESSFULLY";
                 data := DataItem None;
                 description := "Patient fetched successfully" |} |}) as H
    by (apply Hclaim; reflexivity).
  vm_compute in H. discriminate H.
Qed.

Lemma marshallable_map_lookup (o : JsObject) a v :
  marshallable_map o = true -> o !! a = Some v -> marshallable v = true.
Proof.
  unfold marshallable_map. intros H%bool_decide_eq_true Hl.
  by apply (map_Forall_lookup_1 _ _ _ _ H Hl).
Qed.

Lemma new_patient_field env body a :
  a ∈ ["Name"; "Address"; "Conditions"; "Allergies"] ->
  new_patient env body !! a = Some (prop body a).
Proof.
  rewrite !elem_of_cons. intros [-> | [-> | [-> | [-> | Ha]]]];
    [unfold new_patient;
     repeat first [apply lookup_insert_eq
                  | rewrite lookup_insert_ne by discriminate] .. |].
  apply elem_of_nil in Ha. destruct Ha.
Qed.

Lemma new_patient_PatientID env body :
  new_patient env body !! "PatientID" = Some (JsStr (uuidv4 env)).
Proof. apply lookup_insert_eq. Qed.

Lemma new_patient_lookup_Some env body a v :
  new_patient env body !! a = Some v ->
  (a = "PatientID" /\ v = JsStr (uuidv4 env))
  \/ (a ∈ ["Name"; "Address"; "Conditions"; "Allergies"] /\ v = prop body a).
Proof.
  unfold new_patient.
  destruct (decide (a = "PatientID")) as [->|H1].
  { rewrite lookup_insert_eq. intros [= <-]. by left. }
  rewrite lookup_insert_ne by done.
  destruct (decide (a = "Name")) as [->|H2].
  { rewrite lookup_insert_eq. intros [= <-]. right. split; [|done]. repeat constructor. }
  rewrite lookup_insert_ne by done.
  destruct (decide (a = "Address")) as [->|H3].
  { rewrite lookup_insert_eq. intros [= <-]. right. split; [|done]. repeat constructor. }
  rewrite lookup_insert_ne by done.
  destruct (decide (a = "Conditions")) as [->|H4].
  { rewrite lookup_insert_eq. intros [= <-]. right. split; [|done]. repeat constructor. }
  rewrite lookup_insert_ne by done.
  destruct (decide (a = "Allergies")) as [->|H5].
  { rewrite lookup_insert_eq. intros [= <-]. right. split; [|done]. repeat constructor. }
  rewrite lookup_insert_ne by done. by rewrite lookup_empty.
Qed.

Lemma new_patient_key env body id :
  item_key (new_patient env body) = Some id -> id = uuidv4 env.
Proof.
  intros [Hp _]%item_key_prop. unfold prop in Hp.
  rewrite new_patient_PatientID in Hp. simpl in Hp. by injection Hp.
Qed.

(** The record the create handler builds is one the store takes when the
    minted id is not empty, every field the body defines can be marshalled,
    and the address, if the body has one, is a non-empty string. *)
Lemma new_patient_well_formed env body :
  uuidv4 env <> "" ->
  (forall a, a ∈ ["Name"; "Address"; "Conditions"; "Allergies"] ->
     prop body a = JsUndefined \/ marshallable (prop body a) = true) ->
  prop body "Address" = JsUndefined \/ index_key_ok (prop body "Address") = true ->
  well_formed (PutCommand (new_patient env body)) = true.
Proof.
  intros Hid Hm Ha. cbn [well_formed].
  apply andb_true_iff. split; [apply andb_true_iff; split|].
  - apply bool_decide_eq_true. intros a v Hl.
    apply lookup_drop_undefined_Some in Hl as [Hl Hdef].
    apply new_patient_lookup_Some in Hl as [[_ ->] | [Hin ->]]; [done|].
    by destruct (Hm a Hin).
  - apply bool_decide_eq_true. unfold item_key.
    rewrite new_patient_PatientID.
    destruct (String.eqb_spec (uuidv4 env) ""); [done | by eexists].
  - rewrite lookup_drop_undefined, (new_patient_field env body "Address")
      by repeat constructor.
    destruct Ha as [-> | Ha]; [done|].
    destruct (prop body "Address"); try done.
Qed.

(** C9.  The record a create request stores and indexes is keyed by the id
    [uuidv4()] returned: its PatientID is that id, it has the Name,
    Address, Conditions and Allergies the body defines, with the body's
    values, and no other field; the response carries that record.  Two
    bodies that agree on these four fields are treated alike, whatever else
    (a PatientID included) they carry.  The create is answered 201 when
    both services serve the request, the minted id is not empty, every
    field the body defines can be marshalled and the address, if there is
    one, is a non-empty string. *)
Theorem create_mints_id_and_takes_four_fields env req w :
  (forall req',
     (forall a, a ∈ ["Name"; "Address"; "Conditions"; "Allergies"] ->
        body req' !! a = body req !! a) ->
     post_patients env req' w = post_patients env req w)
  /\ (forall res w',
        post_patients env req w = (res, w') ->
        status res = 201 ->
        exists patientData sent,
          content res = Json {|
            statusCode := "CREATED_SUCCESSFULLY";
            data := DataPatient sent;
            description := "Patient created successfully" |}
          /\ JSON_roundtrip sent = patientData
          /\ store w' = <[uuidv4 env := patientData]> (store w)
          /\ index w' = <[uuidv4 env := patientData]> (index w)
          /\ patientData !! "PatientID" = Some (JsStr (uuidv4 env))
          /\ (forall a v, a ∈ ["Name"; "Address"; "Conditions"; "Allergies"] ->
                patientData !! a = Some v
                <-> prop (body req) a = v /\ v <> JsUndefined)
          /\ (forall a, a ∉ ["PatientID"; "Name"; "Address"; "Conditions"; "Allergies"] ->
                patientData !! a = None))
  /\ (dynamo_serves env = true ->
      opensearch_serves env = true ->
      uuidv4 env <> "" ->
      (forall a, a ∈ ["Name"; "Address"; "Conditions"; "Allergies"] ->
         prop (body req) a = JsUndefined \/ marshallable (prop (body req) a) = true) ->
      prop (body req) "Address" = JsUndefined
      \/ index_key_ok (prop (body req) "Address") = true ->
      status (fst (post_patients env req w)) = 201).
Proof.
  split; [|split].
  - intros req' Hsame. unfold post_patients.
    assert (new_patient env (body req') = new_patient env (body req)) as ->; [|done].
    unfold new_patient, prop.
    by rewrite !Hsame by (repeat constructor).
  - intros res w'. unfold post_patients, handle.
    destruct (createPatient env (new_patient env (body req)) w) as [[result|e] w0] eqn:Hc;
      intros [= <- <-]; [intros _|discriminate].
    pose proof Hc as Hput.
    apply createPatient_fulfilled in Hc as (-> & id & Hid & Hs & Hi).
    assert (id = uuidv4 env) as ->.
    { unfold prop in Hid. rewrite new_patient_PatientID in Hid.
      simpl in Hid. by injection Hid. }
    assert (marshallable_map (drop_undefined (new_patient env (body req))) = true) as Hm.
    { revert Hput. unfold createPatient, try_catch, bind.
      destruct (dynamo_send env _ w) as [[out|e] w2] eqn:Hsend; [|by unfold throw].
      apply dynamo_send_inv in Hsend as (Hwf & _). intros _.
      by apply put_accepted_marshalled. }
    exists (drop_undefined (new_patient env (body req))), (new_patient env (body req)).
    split; [reflexivity|].
    split; [by apply JSON_roundtrip_marshalled|].
    split; [exact Hs|]. split; [exact Hi|].
    split.
    { apply lookup_drop_undefined_Some. split; [apply new_patient_PatientID | done]. }
    split.
    + intros a v Ha. rewrite lookup_drop_undefined_Some.
      rewrite (new_patient_field env (body req) a Ha).
      split; [by intros [[= <-] ?] | by intros [<- ?]].
    + intros a Ha. rewrite lookup_drop_undefined.
      destruct (new_patient env (body req) !! a) as [v|] eqn:Hl; [|done].
      apply new_patient_lookup_Some in Hl as [[-> _] | [Hin _]];
        destruct Ha; by constructor.
  - intros Hd Ho Hid Hm Ha.
    destruct (createPatient_served env (new_patient env (body req)) w
                (new_patient_well_formed env (body req) Hid Hm Ha) Hd Ho) as [w' Hc].
    unfold post_patients, handle. by rewrite Hc.
Qed.

(** ** The statements at work on the sample service *)

Lemma create_delete_keep_same_ids_witness :
  dom (store Sample.empty_world) = dom (index Sample.empty_world)
  /\ exists w',
       createPatient Sample.env Sample.jane Sample.empty_world
         = (Fulfilled Sample.jane, w')
       /\ store w' !! "6f1c" = Some (drop_undefined Sample.jane)
       /\ index w' !! "6f1c" = Some (drop_undefined Sample.jane)
       /\ dom (store w') = dom (index w').
Proof.
  split; [reflexivity|].
  destruct (create_delete_keep_same_ids Sample.env Sample.empty_world) as [Hcreate _];
    [reflexivity|].
  destruct (Hcreate Sample.jane) as [Heffect Hserved].
  destruct Hserved as [w' Hc]; [reflexivity | reflexivity | reflexivity |].
  exists w'. split; [exact Hc|].
  destruct (Heffect _ _ Hc) as (id & Hid & Hs & Hi & Hdom).
  vm_compute in Hid. injection Hid as <-.
  rewrite Hs, Hi. split; [apply lookup_insert_eq|].
  split; [apply lookup_insert_eq|].
  rewrite <- Hs, <- Hi. exact Hdom.
Defined.

Lemma no_rollback_after_index_failure_witness :
  dynamo_send Sample.env_index_down (PutCommand Sample.jane) Sample.empty_world
    = (Fulfilled empty_output, Sample.after_put)
  /\ indexPatient Sample.env_index_down Sample.jane Sample.after_put
     = (Rejected (Error "Error occurred while indexing the patient in opensearch"),
        Sample.after_failed_index)
  /\ createPatient Sample.env_index_down Sample.jane Sample.empty_world
     = (Rejected (Error "Error occurred while creating the patient"),
        Sample.after_failed_index)
  /\ store Sample.after_failed_index !! "6f1c" = Some Sample.jane.
Proof.
  assert (dynamo_send Sample.env_index_down (PutCommand Sample.jane) Sample.empty_world
          = (Fulfilled empty_output, Sample.after_put)) as Hput
    by (vm_compute; reflexivity).
  assert (indexPatient Sample.env_index_down Sample.jane Sample.after_put
          = (Rejected (Error "Error occurred while indexing the patient in opensearch"),
             Sample.after_failed_index)) as Hidx
    by (vm_compute; reflexivity).
  destruct (no_rollback_after_index_failure Sample.env_index_down Sample.empty_world)
    as [Hcreate _].
  destruct (Hcreate _ _ _ _ _ Hput Hidx) as [Hc (id & Hid & _ & Hkept)].
  split; [exact Hput|]. split; [exact Hidx|]. split; [exact Hc|].
  vm_compute in Hid. injection Hid as <-.
  rewrite Hkept. vm_compute. reflexivity.
Defined.

Lemma update_overwrites_four_fields_only_witness :
  fst (updatePatient Sample.env "6f1c" (body Sample.patch_jane) Sample.world_with_jane)
    = Fulfilled empty_output
  /\ (exists item',
        store (snd (updatePatient Sample.env "6f1c" (body Sample.patch_jane)
                      Sample.world_with_jane)) !! "6f1c" = Some item'
        /\ item' !! "Address" = Some (JsStr "2 Oak")
        /\ item' !! "Name" = Some (JsStr "Jane")
        /\ item' !! "PatientID" = Some (JsStr "6f1c"))
  /\ index (snd (updatePatient Sample.env "6f1c" (body Sample.patch_jane)
                   Sample.world_with_jane))
     = index Sample.world_with_jane.
Proof.
  destruct (update_overwrites_four_fields_only Sample.env "6f1c" Sample.patch_jane
              Sample.world_with_jane)
    as (Hindex & _ & _ & _ & Hserved & Heffect & _ & _).
  assert (fst (updatePatient Sample.env "6f1c" (body Sample.patch_jane)
                 Sample.world_with_jane) = Fulfilled empty_output) as Hok.
  { apply Hserved; [reflexivity | discriminate | repeat constructor | reflexivity]. }
  split; [exact Hok|]. split; [|exact Hindex].
  destruct (Heffect _ Hok) as (item' & Hitem & Hname & Haddress & _ & _ & Hkept).
  exists item'. split; [exact Hitem|].
  split; [exact Haddress|]. split; [exact Hname|].
  destruct (Hkept Sample.jane) as [Hid _]; [reflexivity|].
  rewrite Hid. reflexivity.
Defined.

Lemma scan_returns_contains_matches_witness :
  dynamo_serves Sample.env = true
  /\ exists items w',
       findPatientsByCondition Sample.env (JsStr "asthma") Sample.world_with_jane
         = (Fulfilled {| Item := None; Items := Some items; Attributes := None |}, w')
       /\ Sample.jane ∈ items.
Proof.
  split; [reflexivity|].
  destruct (scan_returns_contains_matches Sample.env Sample.world_with_jane "asthma")
    as (items & w' & Hscan & _ & _ & Hiff); [reflexivity | vm_compute; lia |].
  exists items, w'. split; [exact Hscan|].
  apply Hiff. split; [by exists "6f1c"|].
  vm_compute. apply list_elem_of_here.
Defined.

Lemma unauthenticated_request_reaches_no_adapter_witness :
  protected (route Sample.env Sample.create_jane_unsigned) = true
  /\ snd (app Sample.cfg Sample.idp Sample.env Sample.create_jane_unsigned
            Sample.empty_world) = Sample.empty_world
  /\ fst (app Sample.cfg Sample.idp Sample.env Sample.create_jane_unsigned
            Sample.empty_world)
     = {| status := 401; content := Text "Access denied" |}.
Proof.
  split; [reflexivity|].
  destruct (unauthenticated_request_reaches_no_adapter Sample.cfg Sample.idp
              Sample.env Sample.create_jane_unsigned Sample.empty_world)
    as [Hmissing _].
  destruct Hmissing as (Hworld & Hanswer & _); [reflexivity | left; reflexivity |].
  split; [exact Hworld|].
  apply (Hanswer Sample.jane_fields). reflexivity.
Defined.
Lemma get_of_missing_id_answers_200_witness :
  route Sample.env Sample.get_stranger = GetPatient "77aa"
  /\ store Sample.world_with_jane !! "77aa" = None
  /\ fst (app Sample.cfg Sample.idp Sample.env Sample.get_stranger
            Sample.world_with_jane)
     = {| status := 200;
          content := Json {|
            statusCode := "FETCHED_SUCCESSFULLY";
            data := DataItem None;
            description := "Patient fetched successfully" |} |}.
Proof.
  split; [reflexivity|]. split; [reflexivity|].
  destruct (get_of_missing_id_answers_200 Sample.cfg Sample.idp Sample.env
              Sample.get_stranger "77aa" Sample.world_with_jane) as [Hserved _];
    [reflexivity | by exists ∅ | reflexivity | discriminate |].
  destruct (Hserved eq_refl) as [Hmissing _].
  apply Hmissing. reflexivity.
Defined.
Lemma create_mints_id_and_takes_four_fields_witness :
  status (fst (post_patients Sample.env Scenario.create_without_allergies
                 Sample.empty_world)) = 201
  /\ exists patientData,
       store (snd (post_patients Sample.env Scenario.create_without_allergies
                     Sample.empty_world))
       = <[ "6f1c" := patientData ]> ∅
       /\ index (snd (post_patients Sample.env Scenario.create_without_allergies
                        Sample.empty_world))
          = <[ "6f1c" := patientData ]> ∅
       /\ patientData !! "PatientID" = Some (JsStr "6f1c")
       /\ patientData !! "Address" = Some (JsStr "3 Ash")
       /\ patientData !! "Allergies" = None.
Proof.
  destruct (create_mints_id_and_takes_four_fields Sample.env
              Scenario.create_without_allergies Sample.empty_world)
    as (_ & Heffect & Hserved).
  assert (status (fst (post_patients Sample.env Scenario.create_without_allergies
                         Sample.empty_world)) = 201) as Hcreated.
  { apply Hserved;
      [reflexivity | reflexivity | discriminate | | right; vm_compute; reflexivity].
    intros a Ha. rewrite !elem_of_cons in Ha.
    destruct Ha as [-> | [-> | [-> | [-> | Ha]]]];
      [right; vm_compute; reflexivity | right; vm_compute; reflexivity
      | right; vm_compute; reflexivity | left; vm_compute; reflexivity
      | apply elem_of_nil in Ha; destruct Ha]. }
  split; [exact Hcreated|].
  destruct (Heffect
              (fst (post_patients Sample.env Scenario.create_without_allergies
                      Sample.empty_world))
              (snd (post_patients Sample.env Scenario.create_without_allergies
                      Sample.empty_world)))
    as (patientData & sent & _ & _ & Hs & Hi & Hid & Hfields & _);
    [apply surjective_pairing | exact Hcreated |].
  exists patientData. split; [exact Hs|]. split; [exact Hi|]. split; [exact Hid|].
  split.
  - apply Hfields; [repeat constructor|].
    split; [vm_compute; reflexivity | discriminate].
  - destruct (patientData !! "Allergies") as [v|] eqn:Hv; [|reflexivity].
    apply Hfields in Hv as [Hv Hdef]; [|repeat constructor].
    vm_compute in Hv. destruct (Hdef (eq_sym Hv)).
Defined.

Lemma update_of_absent_id_upserts_witness :
  store Sample.world_with_jane !! "77aa" = None
  /\ exists out w',
       updatePatient Sample.env "77aa" (body Sample.patch_stranger) Sample.world_with_jane
         = (Fulfilled out, w')
       /\ store w' !! "77aa" = Some (<[ "PatientID" := JsStr "77aa" ]> Sample.jane_fields)
       /\ status (fst (patch_patient Sample.env "77aa" Sample.patch_stranger
                         Sample.world_with_jane)) = 200.
Proof.
  split; [reflexivity|].
  destruct (update_of_absent_id_upserts Sample.env "77aa" Sample.patch_stranger
              Sample.world_with_jane)
    as (out & w' & Hup & Hs & Hanswer);
    [reflexivity | discriminate | reflexivity | repeat constructor | reflexivity |].
  exists out, w'. split; [exact Hup|]. split.
  - rewrite Hs. vm_compute. reflexivity.
  - rewrite Hanswer. reflexivity.
Defined.

(** * Further properties *)

(** ** The token verifier and the configuration *)

Lemma append_assoc (a b c : string) : (a +:+ b) +:+ c = a +:+ (b +:+ c).
Proof.
  induction a as [|x a IH]; [reflexivity|].
  change (String x ((a +:+ b) +:+ c) = String x (a +:+ (b +:+ c))).
  by rewrite IH.
Qed.

(** X1.  With the configuration loaded from the environment, the key for
    a token is looked up only in the key set published under the
    configured issuer, at [/.well-known/jwks.json], with a cache of 5
    entries kept for 600000 ms: two identity providers that decode the token
    alike and answer alike for that key set give the same key or the same
    refusal. *)
Theorem jwks_fetched_under_issuer process_env idp idp' token :
  jwt_decode idp token = jwt_decode idp' token ->
  (forall kid,
     jwksClient idp {|
       cache := true;
       jwksUri := Config.awsTokenIssuer (Config.Configs process_env)
                  +:+ "/.well-known/jwks.json";
       cacheMaxEntries := 5;
       cacheMaxAge := 600000 |} kid
     = jwksClient idp' {|
         cache := true;
         jwksUri := Config.awsTokenIssuer (Config.Configs process_env)
                    +:+ "/.well-known/jwks.json";
         cacheMaxEntries := 5;
         cacheMaxAge := 600000 |} kid) ->
  fetchJWKS (Config.Configs process_env) idp token
  = fetchJWKS (Config.Configs process_env) idp' token.
Proof.
  intros Hdecode Hkeys. unfold fetchJWKS. rewrite <- Hdecode.
  destruct (jwt_decode idp token) as [[decodedJwt|]|e]; try done.
  destruct (truthy (header_kid decodedJwt)); simpl; [|done].
  cbn [Config.awsTokenIssuer Config.awsRegion Config.poolId Config.Configs] in *.
  rewrite !append_assoc in Hkeys. by rewrite Hkeys.
Qed.

(** X2.  When the environment does not set [AWS_POOL_CLIENT_ID], the
    verifier turns every request down, whatever token it carries. *)
Theorem no_client_id_no_access process_env idp env req :
  process_env !! "AWS_POOL_CLIENT_ID" = None ->
  authenticate (Config.Configs process_env) idp env req
  = Answered {| status := 401; content := Text "Access denied" |}.
Proof.
  intros Hnone. unfold authenticate.
  destruct (verified (Config.Configs process_env) idp req) as [tokenData|e]; [|done].
  unfold claims_hold. cbn [Config.clientId Config.Configs]. rewrite Hnone.
  by rewrite bool_decide_eq_false_2.
Qed.

Lemma no_client_id_no_access_witness :
  authenticate (Config.Configs ∅) Sample.idp Sample.env
    (Sample.request GET ["patients"; "p1"] (Some "good") ∅)
  = Answered {| status := 401; content := Text "Access denied" |}.
Proof.
  apply (no_client_id_no_access ∅ Sample.idp Sample.env). reflexivity.
Defined.

(** X3.  The verifier never lets a request through on less than the whole
    chain: an accepted request carries a non-empty Authorization header
    whose token decodes to a header with a key id, for which a non-empty
    public key was found, under which verification returned a payload whose
    client id, issuer and expiry all pass. *)
Theorem accepted_request_passed_every_step cfg idp env req :
  authenticate cfg idp env req = Next ->
  exists token decodedJwt publicKey tokenData,
    headers req !! "authorization" = Some token
    /\ token <> ""
    /\ jwt_decode idp token = Fulfilled (Some decodedJwt)
    /\ truthy (header_kid decodedJwt) = true
    /\ fetchJWKS cfg idp token = Fulfilled publicKey
    /\ publicKey <> ""
    /\ verifyToken cfg idp token publicKey = Fulfilled (Some tokenData)
    /\ Some (client_id tokenData) = Config.clientId cfg
    /\ iss tokenData = Config.awsTokenIssuer cfg
    /\ (Math_round_div1000 (Date_getTime env) <= exp tokenData)%Z.
Proof.
  unfold authenticate, verified.
  destruct (headers req !! "authorization") as [token|]; [|done].
  destruct (String.eqb_spec token "") as [|Htoken]; [done|].
  destruct (fetchJWKS cfg idp token) as [publicKey|e] eqn:Hkey; [|done].
  destruct (verifyToken cfg idp token publicKey) as [[tokenData|]|e] eqn:Hverify;
    try done.
  destruct (String.eqb_spec publicKey "") as [|Hpk]; [done|].
  destruct (claims_hold cfg env tokenData) eqn:Hclaims; [|done]. intros _.
  apply claims_hold_spec in Hclaims as (Hc & Hi & He).
  assert (exists decodedJwt,
            jwt_decode idp token = Fulfilled (Some decodedJwt)
            /\ truthy (header_kid decodedJwt) = true) as (decodedJwt & Hd & Hkid).
  { revert Hkey. unfold fetchJWKS.
    destruct (jwt_decode idp token) as [[d|]|e]; try done.
    destruct (truthy (header_kid d)) eqn:Hk; [|done]. by exists d. }
  by exists token, decodedJwt, publicKey, tokenData.
Qed.

Lemma accepted_request_passed_every_step_witness :
  exists token,
    headers (Sample.request GET ["patients"; "p1"] (Some "good") ∅) !! "authorization"
    = Some token /\ token <> "".
Proof.
  destruct (accepted_request_passed_every_step Sample.cfg Sample.idp Sample.env
              (Sample.request GET ["patients"; "p1"] (Some "good") ∅))
    as (token & _ & _ & _ & Hh & Ht & _); [reflexivity|].
  exists token. split; [exact Hh | exact Ht].
Defined.

(** X4.  The verdict depends on the request through its Authorization
    header alone: method, path, query and body play no part. *)
Theorem verdict_depends_on_header_only cfg idp env req req' :
  headers req !! "authorization" = headers req' !! "authorization" ->
  authenticate cfg idp env req = authenticate cfg idp env req'.
Proof. intros H. unfold authenticate, verified. by rewrite H. Qed.

Lemma verdict_depends_on_header_only_witness :
  authenticate Sample.cfg Sample.idp Sample.env Sample.create_jane
  = authenticate Sample.cfg Sample.idp Sample.env Sample.get_stranger.
Proof.
  apply (verdict_depends_on_header_only Sample.cfg Sample.idp Sample.env
           Sample.create_jane Sample.get_stranger).
  reflexivity.
Defined.

(** X5.  Because the clock is rounded to the nearest second, a payload
    whose client id and issuer match passes the expiry check exactly while
    the clock reads no more than 499 ms past the second [exp]. *)
Theorem expiry_has_half_second_grace cfg env tokenData :
  Some (client_id tokenData) = Config.clientId cfg ->
  iss tokenData = Config.awsTokenIssuer cfg ->
  claims_hold cfg env tokenData = true
  <-> (Date_getTime env <= 1000 * exp tokenData + 499)%Z.
Proof.
  intros Hc Hi. rewrite claims_hold_spec. unfold Math_round_div1000.
  split.
  - intros (_ & _ & H).
    pose proof (Z.mul_div_le (Date_getTime env + 500) 1000 ltac:(lia)).
    pose proof (Z.mod_pos_bound (Date_getTime env + 500) 1000 ltac:(lia)).
    pose proof (Z.div_mod (Date_getTime env + 500) 1000 ltac:(lia)). lia.
  - intros H. repeat split; try done.
    apply Z.lt_succ_r, Z.div_lt_upper_bound; lia.
Qed.

Lemma expiry_has_half_second_grace_witness :
  claims_hold Sample.cfg Sample.env Sample.good_claims = true
  <-> (Date_getTime Sample.env <= 1000 * exp Sample.good_claims + 499)%Z.
Proof.
  apply (expiry_has_half_second_grace Sample.cfg Sample.env Sample.good_claims);
    reflexivity.
Defined.

(** ** Routing and responses *)

(** X6.  A GET of [/] whose entity [express.json()] has taken is answered
    200 with the health banner without consulting the verifier and without
    touching the services, whatever headers it carries; when the entity is
    refused the answer is Express's error page instead, and the services
    are not touched either. *)
Theorem health_check_needs_no_token cfg idp env req w :
  method req = GET ->
  trim_slash (path req) = [] ->
  (forall parsed, payload req = inr parsed ->
     app cfg idp env req w
     = ({| status := 200; content := Text "Patient Management API" |}, w))
  /\ (forall e, payload req = inl e ->
        app cfg idp env req w
        = ({| status := body_error_status e; content := ExpressErrorPage |}, w)).
Proof.
  intros Hm Hp. unfold app, route. rewrite Hm, Hp.
  split; [intros parsed -> | intros e ->]; reflexivity.
Qed.

Lemma health_check_needs_no_token_witness :
  app Sample.cfg Sample.idp Sample.env (Sample.request GET [""] None ∅)
    Sample.world_with_jane
  = ({| status := 200; content := Text "Patient Management API" |},
     Sample.world_with_jane).
Proof.
  destruct (health_check_needs_no_token Sample.cfg Sample.idp Sample.env
              (Sample.request GET [""] None ∅) Sample.world_with_jane)
    as [Hbanner _]; [reflexivity | reflexivity |].
  apply (Hbanner ∅). reflexivity.
Defined.

(** X7.  Under [/patients], whatever the case of that word and with or
    without a trailing slash, a GET with one more segment reaches the by-id
    handler exactly when that segment is not empty, decodes, and is, case
    apart, neither [address] nor [condition]: those two words are taken by
    the routes registered before it.  PATCH and DELETE take any non-empty
    segment that decodes, those two words included.  A segment that does
    not decode reaches no handler, whatever the method. *)
Theorem literal_routes_shadow_two_ids env req p s :
  trim_slash (path req) = [p; s] ->
  literal "patients" p = true ->
  (method req = GET ->
     (forall id,
        route env req = GetPatient id
        <-> s <> "" /\ decodeURIComponent env s = Some id
            /\ lower s <> "address" /\ lower s <> "condition")
     /\ (s <> "" -> is_Some (decodeURIComponent env s) ->
         lower s = "address" -> route env req = GetAddress)
     /\ (s <> "" -> is_Some (decodeURIComponent env s) ->
         lower s = "condition" -> route env req = GetCondition))
  /\ (method req = PATCH ->
      forall id,
        route env req = PatchPatient id
        <-> s <> "" /\ decodeURIComponent env s = Some id)
  /\ (method req = DELETE ->
      forall id,
        route env req = DeletePatient id
        <-> s <> "" /\ decodeURIComponent env s = Some id)
  /\ (s <> "" -> decodeURIComponent env s = None -> route env req = Undecodable).
Proof.
  intros Hpath Hp. unfold route, segment, literal in *. rewrite Hpath, Hp. simpl.
  destruct (String.eqb_spec s "") as [->|Hs]; simpl.
  { split; [intros _; split; [|split] | split; [|split]]; try done;
      intros; split; try done; by intros [? _]. }
  destruct (decodeURIComponent env s) as [id'|] eqn:Hd.
  - split; [|split; [|split]]; try done.
    + intros ->.
      destruct (String.eqb_spec (lower s) "address") as [Ha|Ha].
      { split; [|split]; try done.
        - intros id. split; [done | by intros (_ & _ & ? & _)].
        - intros _ _ Hc. rewrite Ha in Hc. discriminate Hc. }
      destruct (String.eqb_spec (lower s) "condition") as [Hc|Hc].
      { split; [|split]; try done.
        intros id. split; [done | by intros (_ & _ & _ & ?)]. }
      split; [|split]; try done.
      intros id. split; [by intros [= ->] | by intros (_ & [= ->] & _)].
    + intros -> id. split; [by intros [= ->] | by intros (_ & [= ->])].
    + intros -> id. split; [by intros [= ->] | by intros (_ & [= ->])].
  - split; [|split; [|split]]; try done.
    + intros _. split; [|split].
      * intros id. split; [done | by intros (_ & ? & _)].
      * by intros _ [? ?].
      * by intros _ [? ?].
    + intros _ id. split; [done | by intros (_ & ?)].
    + intros _ id. split; [done | by intros (_ & ?)].
Qed.

Lemma literal_routes_shadow_two_ids_witness :
  route Sample.env (Sample.request GET ["Patients"; "ADDRESS"; ""] None ∅) = GetAddress
  /\ route Sample.env (Sample.request GET ["patients"; "6f1c"] None ∅)
     = GetPatient "6f1c"
  /\ route Sample.env (Sample.request PATCH ["patients"; "address"] None ∅)
     = PatchPatient "address".
Proof.
  destruct (literal_routes_shadow_two_ids Sample.env
              (Sample.request GET ["Patients"; "ADDRESS"; ""] None ∅)
              "Patients" "ADDRESS")
    as [Hget _]; [reflexivity | reflexivity |].
  destruct (literal_routes_shadow_two_ids Sample.env
              (Sample.request GET ["patients"; "6f1c"] None ∅) "patients" "6f1c")
    as [Hid _]; [reflexivity | reflexivity |].
  destruct (literal_routes_shadow_two_ids Sample.env
              (Sample.request PATCH ["patients"; "address"] None ∅)
              "patients" "address")
    as (_ & Hpatch & _); [reflexivity | reflexivity |].
  split; [|split].
  - apply (Hget eq_refl); [discriminate | by eexists | reflexivity].
  - apply (Hid eq_refl). repeat split; discriminate.
  - apply (Hpatch eq_refl). split; [discriminate | reflexivity].
Defined.



(** ** Reads, writes and their order *)

Lemma dynamo_send_rejected_world env cmd w e w' :
  dynamo_send env cmd w = (Rejected e, w') ->
  store w' = store w /\ index w' = index w
  /\ calls w' = (calls w ++ [DynamoSend cmd])%list.
Proof. intros H. by apply dynamo_send_inv in H as ->. Qed.

Lemma dynamo_send_read_only env cmd w :
  match cmd with
  | GetCommand _ | QueryCommand _ _ _ | ScanCommand _ _ => True
  | _ => False
  end ->
  store (snd (dynamo_send env cmd w)) = store w
  /\ index (snd (dynamo_send env cmd w)) = index w.
Proof.
  intros Hread. unfold dynamo_send.
  destruct (well_formed cmd); simpl; [|done].
  destruct (dynamo_serves env); simpl; [|done].
  by destruct cmd.
Qed.

Lemma search_read_only env field text w :
  store (snd (OpenSearchClient.search env field text w)) = store w
  /\ index (snd (OpenSearchClient.search env field text w)) = index w.
Proof.
  unfold OpenSearchClient.search.
  destruct (opensearch_serves env); [|done]. by destruct text.
Qed.

Lemma try_catch_throw_world {A} (m : M A) e w :
  snd (try_catch m (fun _ => throw e) w) = snd (m w).
Proof. unfold try_catch, throw. by destruct (m w) as [[a|e'] w']. Qed.

Lemma handle_world {A} (m : M A) code envelope w :
  snd (handle m code envelope w) = snd (m w).
Proof. unfold handle. by destruct (m w) as [[a|e] w']. Qed.

Lemma read_handlers_change_nothing env r req w :
  match r with
  | PostPatients | PatchPatient _ | DeletePatient _ => False
  | _ => True
  end ->
  store (snd (handler env r req w)) = store w
  /\ index (snd (handler env r req w)) = index w.
Proof.
  destruct r; try done; intros _; simpl;
    unfold get_search_condition, get_search_address, get_address, get_condition,
      get_patient, searchByCondition, searchByAddress, findPatientsByAddress,
      findPatientsByCondition, getPatient;
    rewrite handle_world, ?try_catch_throw_world;
    first [by apply search_read_only | by apply dynamo_send_read_only].
Qed.

(** X9.  A GET request never changes the store or the index, whichever
    route it takes and whether it is accepted, refused or fails. *)
Theorem get_requests_change_nothing cfg idp env req w :
  method req = GET ->
  store (snd (app cfg idp env req w)) = store w
  /\ index (snd (app cfg idp env req w)) = index w.
Proof.
  intros Hm. unfold app.
  destruct (payload req) as [e|parsed]; [done|].
  assert (match route env req with
          | PostPatients | PatchPatient _ | DeletePatient _ => False
          | _ => True
          end) as Hr.
  { unfold route. rewrite Hm.
    destruct (trim_slash (path req)) as [|p [|s [|t [|u l]]]]; try done;
      repeat (match goal with
              | |- context [if ?b then _ else _] => destruct b
              | |- context [match decodeURIComponent env ?s with _ => _ end] =>
                  destruct (decodeURIComponent env s)
              end; try done). }
  destruct (protected (route env req));
    [|by apply read_handlers_change_nothing].
  destruct (authenticate cfg idp env req); [|done].
  by apply read_handlers_change_nothing.
Qed.

Lemma get_requests_change_nothing_witness :
  store (snd (app Sample.cfg Sample.idp Sample.env Sample.get_stranger
                Sample.world_with_jane))
  = store Sample.world_with_jane.
Proof.
  apply (get_requests_change_nothing Sample.cfg Sample.idp Sample.env
           Sample.get_stranger Sample.world_with_jane).
  reflexivity.
Defined.

(** X10.  [createPatient] writes the store first and the index second,
    one call each.  When the put is refused it stops there: the index is
    never called, store and index stay as they were, and the error is the
    generic one.  When the put goes through the only other call is the
    indexing of the same record under its [PatientID]. *)
Theorem create_puts_then_indexes env patientData w put w1 :
  dynamo_send env (PutCommand patientData) w = (put, w1) ->
  match put with
  | Rejected _ =>
      createPatient env patientData w
      = (Rejected (Error "Error occurred while creating the patient"), w1)
      /\ store w1 = store w
      /\ index w1 = index w
      /\ calls w1 = (calls w ++ [DynamoSend (PutCommand patientData)])%list
  | Fulfilled _ =>
      calls (snd (createPatient env patientData w))
      = (calls w ++ [DynamoSend (PutCommand patientData);
                     OpenSearchCall (OsIndex (prop patientData "PatientID") patientData)])%list
  end.
Proof.
  intros Hput. destruct put as [out|e].
  - unfold createPatient, try_catch, bind. rewrite Hput.
    apply dynamo_send_inv in Hput as (Hwf & _ & Hrun).
    destruct (put_accepted_key _ Hwf) as [id Hid].
    simpl in Hrun. rewrite Hid in Hrun. injection Hrun as <- <-.
    unfold indexPatient, try_catch, OpenSearchClient.index, throw, ret.
    destruct (opensearch_serves env); simpl; by rewrite <- app_assoc.
  - split.
    + unfold createPatient, try_catch, bind. by rewrite Hput.
    + by apply dynamo_send_rejected_world in Hput.
Qed.

Lemma create_puts_then_indexes_witness :
  calls (snd (createPatient Sample.env Sample.jane Sample.empty_world))
  = [DynamoSend (PutCommand Sample.jane);
     OpenSearchCall (OsIndex (prop Sample.jane "PatientID") Sample.jane)].
Proof.
  apply (create_puts_then_indexes Sample.env Sample.jane Sample.empty_world
           (Fulfilled empty_output)
           (snd (dynamo_send Sample.env (PutCommand Sample.jane) Sample.empty_world))).
  vm_compute. reflexivity.
Defined.

(** X11.  [deletePatient] deletes from the store first and from the index
    second.  When the store delete is refused the index is never called
    and nothing changes; when it goes through the only other call is the
    removal of the same id from the index. *)
Theorem delete_removes_from_store_then_index env id w del w1 :
  dynamo_send env (DeleteCommand id) w = (del, w1) ->
  match del with
  | Rejected _ =>
      deletePatient env id w
      = (Rejected (Error "Error occurred while deleting the patient"), w1)
      /\ store w1 = store w
      /\ index w1 = index w
      /\ calls w1 = (calls w ++ [DynamoSend (DeleteCommand id)])%list
  | Fulfilled _ =>
      calls (snd (deletePatient env id w))
      = (calls w ++ [DynamoSend (DeleteCommand id); OpenSearchCall (OsDelete id)])%list
  end.
Proof.
  intros Hdel. destruct del as [out|e].
  - unfold deletePatient, try_catch, bind. rewrite Hdel.
    apply dynamo_send_inv in Hdel as (_ & _ & Hrun).
    simpl in Hrun. injection Hrun as <- <-.
    unfold removePatientFromOpenSearch, try_catch, OpenSearchClient.delete, throw, ret.
    destruct (opensearch_serves env); simpl; [|by rewrite <- app_assoc].
    destruct (index w !! id); simpl; by rewrite <- app_assoc.
  - split.
    + unfold deletePatient, try_catch, bind. by rewrite Hdel.
    + by apply dynamo_send_rejected_world in Hdel.
Qed.

Lemma delete_removes_from_store_then_index_witness :
  calls (snd (deletePatient Sample.env "6f1c" Sample.world_with_jane))
  = [DynamoSend (DeleteCommand "6f1c"); OpenSearchCall (OsDelete "6f1c")].
Proof.
  apply (delete_removes_from_store_then_index Sample.env "6f1c" Sample.world_with_jane
           (Fulfilled empty_output)
           (snd (dynamo_send Sample.env (DeleteCommand "6f1c") Sample.world_with_jane))).
  vm_compute. reflexivity.
Defined.

(** ** Queries against the store *)

Lemma dynamo_equals_string (item : JsObject) a address :
  dynamo_equals (prop item a) (JsStr address) = true
  <-> item !! a = Some (JsStr address).
Proof.
  unfold prop. destruct (item !! a) as [[]|]; simpl; try (split; discriminate).
  rewrite String.eqb_eq. split; [by intros -> | by intros [= ->]].
Qed.

(** X12.  With a store that serves the request and a table that fits one
    page, [findPatientsByAddress] on a non-empty string returns exactly the
    records whose Address attribute is that very string; it changes
    neither store nor index. *)
Theorem address_query_returns_exact_matches env w address :
  dynamo_serves env = true ->
  address <> "" ->
  (size (store w) <= page_items env)%nat ->
  exists items w',
    findPatientsByAddress env (JsStr address) w
      = (Fulfilled {| Item := None; Items := Some items; Attributes := None |}, w')
    /\ store w' = store w
    /\ index w' = index w
    /\ forall item,
         item ∈ items <->
         (exists id, store w !! id = Some item)
         /\ item !! "Address" = Some (JsStr address).
Proof.
  intros Hserves Haddr Hpage.
  unfold findPatientsByAddress, try_catch, dynamo_send. simpl.
  unfold valid_key. destruct (String.eqb_spec address ""); [done|]. simpl.
  rewrite Hserves. simpl. eexists _, _. split; [reflexivity|].
  split; [done|]. split; [done|]. intros item.
  rewrite firstn_all2.
  - rewrite list_elem_of_In, filter_In, <- list_elem_of_In.
    by rewrite (elem_of_table_items (record_call _ w)), dynamo_equals_string.
  - etrans; [apply filter_length_le|].
    rewrite table_items_length. simpl. lia.
Qed.

Lemma address_query_returns_exact_matches_witness :
  exists items w',
    findPatientsByAddress Sample.env (JsStr "1 Elm") Sample.world_with_jane
      = (Fulfilled {| Item := None; Items := Some items; Attributes := None |}, w')
    /\ Sample.jane ∈ items.
Proof.
  destruct (address_query_returns_exact_matches Sample.env Sample.world_with_jane "1 Elm")
    as (items & w' & Hq & _ & _ & Hiff); [reflexivity | discriminate | vm_compute; lia |].
  exists items, w'. split; [exact Hq|].
  apply Hiff. split; [by exists "6f1c" | reflexivity].
Defined.



(** X14.  The two store filters do not check their query parameter: when
    it is missing the command carries [undefined], is refused before it
    reaches the table, and the handler answers 500; store and index stay
    as they were. *)
Theorem filter_without_parameter_fails env req w :
  (query req !! "address" = None ->
     fst (get_address env req w)
     = {| status := 500; content := Text "Something went wrong!" |}
     /\ store (snd (get_address env req w)) = store w
     /\ index (snd (get_address env req w)) = index w)
  /\ (query req !! "condition" = None ->
        fst (get_condition env req w)
        = {| status := 500; content := Text "Something went wrong!" |}
        /\ store (snd (get_condition env req w)) = store w
        /\ index (snd (get_condition env req w)) = index w).
Proof.
  split; intros Hq;
    unfold get_address, get_condition, handle, query_param, findPatientsByAddress,
      findPatientsByCondition, try_catch, dynamo_send;
    by rewrite Hq.
Qed.

(** ** Operations in sequence *)

Lemma createPatient_fulfilled_key env patientData w result w' :
  createPatient env patientData w = (Fulfilled result, w') ->
  exists id,
    item_key patientData = Some id
    /\ marshallable_map (drop_undefined patientData) = true
    /\ store w' = <[id := drop_undefined patientData]> (store w)
    /\ index w' = <[id := drop_undefined patientData]> (index w).
Proof.
  intros H. pose proof H as H'.
  apply createPatient_fulfilled in H as (_ & id & Hid & Hs & Hi).
  revert H'. unfold createPatient, try_catch, bind.
  destruct (dynamo_send env (PutCommand patientData) w) as [[out|e] w1] eqn:Hput;
    [|by unfold throw].
  apply dynamo_send_inv in Hput as (Hwf & _).
  pose proof (put_accepted_marshalled _ Hwf) as Hm.
  destruct (put_accepted_key _ Hwf) as [k Hk]. intros _.
  destruct (item_key_prop _ _ Hk) as [Hp _]. rewrite Hid in Hp. injection Hp as ->.
  by exists k.
Qed.

Lemma getPatient_served env id w :
  dynamo_serves env = true ->
  id <> "" ->
  fst (getPatient env id w)
  = Fulfilled {| Item := store w !! id; Items := None; Attributes := None |}.
Proof.
  intros Hserves Hid. unfold getPatient, dynamo_send. simpl.
  unfold valid_key. destruct (String.eqb_spec id ""); [done|]. simpl.
  by rewrite Hserves.
Qed.

(** X15.  What a create stored can be read back: after a create answered
    201, a GET by the minted id, served by the store, is answered 200 with
    the created record, which is also what the create answered with.  Its
    PatientID is the minted id, and it has the Name, Address, Conditions
    and Allergies that the create body defines, with the body's values; a
    field the body leaves out is not in the record. *)
Theorem created_patient_reads_back env req w res w1 env2 req2 :
  post_patients env req w = (res, w1) ->
  status res = 201 ->
  dynamo_serves env2 = true ->
  exists patientData sent,
    fst (get_patient env2 (uuidv4 env) req2 w1)
    = {| status := 200;
         content := Json {|
           statusCode := "FETCHED_SUCCESSFULLY";
           data := DataItem (Some patientData);
           description := "Patient fetched successfully" |} |}
    /\ content res = Json {|
         statusCode := "CREATED_SUCCESSFULLY";
         data := DataPatient sent;
         description := "Patient created successfully" |}
    /\ JSON_roundtrip sent = patientData
    /\ patientData !! "PatientID" = Some (JsStr (uuidv4 env))
    /\ forall a, a ∈ ["Name"; "Address"; "Conditions"; "Allergies"] ->
         (prop (body req) a <> JsUndefined ->
          patientData !! a = Some (prop (body req) a))
         /\ (prop (body req) a = JsUndefined -> patientData !! a = None).
Proof.
  unfold post_patients, handle.
  destruct (createPatient env (new_patient env (body req)) w) as [[result|e] w0] eqn:Hc;
    intros [= <- <-]; [intros _|discriminate].
  intros Hserves.
  pose proof (createPatient_fulfilled _ _ _ _ _ Hc) as [-> _].
  apply createPatient_fulfilled_key in Hc as (id & Hkey & Hm & Hs & _).
  destruct (item_key_prop _ _ Hkey) as [Hp Hne].
  assert (id = uuidv4 env) as -> by (by apply (new_patient_key env (body req))).
  exists (drop_undefined (new_patient env (body req))), (new_patient env (body req)).
  split.
  { unfold get_patient, handle.
    pose proof (getPatient_served env2 (uuidv4 env) w0 Hserves Hne) as Hget.
    destruct (getPatient env2 (uuidv4 env) w0) as [r w2]. simpl in Hget. subst r.
    simpl. by rewrite Hs, lookup_insert_eq. }
  split; [reflexivity|].
  split; [by apply JSON_roundtrip_marshalled|].
  split.
  { apply lookup_drop_undefined_Some. split; [apply new_patient_PatientID | done]. }
  intros a Ha. split.
  - intros Hdef. apply lookup_drop_undefined_Some.
    split; [by apply new_patient_field | done].
  - intros Hundef. rewrite lookup_drop_undefined, (new_patient_field env _ a Ha).
    by rewrite Hundef.
Qed.

(** X16.  What a delete removed is gone: after a fulfilled
    [deletePatient], a GET by the same id, served by the store, is
    answered 200 with no data. *)
Theorem deleted_patient_reads_as_missing env id w result w1 env2 req2 :
  deletePatient env id w = (Fulfilled result, w1) ->
  dynamo_serves env2 = true ->
  fst (get_patient env2 id req2 w1)
  = {| status := 200;
       content := Json {|
         statusCode := "FETCHED_SUCCESSFULLY";
         data := DataItem None;
         description := "Patient fetched successfully" |} |}.
Proof.
  intros Hdel Hserves.
  assert (id <> "") as Hne.
  { revert Hdel. unfold deletePatient, try_catch, bind.
    destruct (dynamo_send env (DeleteCommand id) w) as [[out|e] w0] eqn:Hsend;
      [|by unfold throw].
    apply dynamo_send_inv in Hsend as (Hwf & _). simpl in Hwf. unfold valid_key in Hwf.
    intros _. by destruct (String.eqb_spec id ""). }
  apply deletePatient_fulfilled in Hdel as [Hs _].
  unfold get_patient, handle.
  pose proof (getPatient_served env2 id w1 Hserves Hne) as Hget.
  destruct (getPatient env2 id w1) as [r w2]. simpl in Hget. subst r.
  simpl. by rewrite Hs, lookup_delete_eq.
Qed.

(** X17.  A create followed by a delete of the record's id, both
    fulfilled, puts store and index back as they were, provided the id was
    in neither before. *)
Theorem create_then_delete_restores env patientData w result w1 env2 id result2 w2 :
  createPatient env patientData w = (Fulfilled result, w1) ->
  patientData !! "PatientID" = Some (JsStr id) ->
  store w !! id = None ->
  index w !! id = None ->
  deletePatient env2 id w1 = (Fulfilled result2, w2) ->
  store w2 = store w /\ index w2 = index w.
Proof.
  intros Hc Hid Hs Hi Hd.
  apply createPatient_fulfilled in Hc as (_ & id' & Hid' & Hs1 & Hi1).
  unfold prop in Hid'. rewrite Hid in Hid'. simpl in Hid'. injection Hid' as <-.
  apply deletePatient_fulfilled in Hd as (-> & ->).
  rewrite Hs1, Hi1, !delete_insert_eq. by rewrite !delete_id.
Qed.


(** ** What the handlers can do to the store and the index *)

Lemma createPatient_world env patientData w :
  (store (snd (createPatient env patientData w)) = store w
   /\ index (snd (createPatient env patientData w)) = index w)
  \/ exists id,
       item_key patientData = Some id
       /\ store (snd (createPatient env patientData w))
          = <[id := drop_undefined patientData]> (store w)
       /\ (index (snd (createPatient env patientData w)) = index w
           \/ index (snd (createPatient env patientData w))
              = <[id := drop_undefined patientData]> (index w)).
Proof.
  unfold createPatient, try_catch, bind.
  destruct (dynamo_send env (PutCommand patientData) w) as [[out|e] w1] eqn:Hput.
  - apply dynamo_send_inv in Hput as (Hwf & _ & Hrun).
    destruct (put_accepted_key _ Hwf) as [id Hid].
    simpl in Hrun. rewrite Hid in Hrun. injection Hrun as <- <-.
    right. exists id. split; [done|].
    unfold indexPatient, try_catch, OpenSearchClient.index, throw, ret.
    rewrite (document_id_of_key _ _ _ Hid).
    rewrite (JSON_roundtrip_marshalled _ (put_accepted_marshalled _ Hwf)).
    destruct (opensearch_serves env); simpl; auto.
  - left. by apply dynamo_send_rejected_world in Hput as (? & ? & _).
Qed.

Lemma deletePatient_world env id w :
  (store (snd (deletePatient env id w)) = store w
   /\ index (snd (deletePatient env id w)) = index w)
  \/ (store (snd (deletePatient env id w)) = delete id (store w)
      /\ (index (snd (deletePatient env id w)) = index w
          \/ index (snd (deletePatient env id w)) = delete id (index w))).
Proof.
  unfold deletePatient, try_catch, bind.
  destruct (dynamo_send env (DeleteCommand id) w) as [[out|e] w1] eqn:Hdel.
  - apply dynamo_send_inv in Hdel as (_ & _ & Hrun).
    simpl in Hrun. injection Hrun as <- <-. right.
    unfold removePatientFromOpenSearch, try_catch, OpenSearchClient.delete, throw, ret.
    destruct (opensearch_serves env); simpl; [|auto].
    destruct (index w !! id); simpl; auto.
  - left. by apply dynamo_send_rejected_world in Hdel as (? & ? & _).
Qed.

Lemma updatePatient_world env id updateData w :
  index (snd (updatePatient env id updateData w)) = index w
  /\ (store (snd (updatePatient env id updateData w)) = store w
      \/ store (snd (updatePatient env id updateData w))
         = <[id := updated_item id updateData w]> (store w)).
Proof.
  destruct (updatePatient env id updateData w) as [r w'] eqn:Hup.
  apply updatePatient_inv in Hup as (Hi & _ & Hs). simpl.
  split; [done|]. destruct r; [by right | left; by destruct Hs].
Qed.

Lemma keyed_by_id_insert (m : gmap string JsObject) id item :
  keyed_by_id m -> item !! "PatientID" = Some (JsStr id) ->
  keyed_by_id (<[id := item]> m).
Proof.
  intros Hm Hitem k item' Hl. destruct (decide (id = k)) as [->|Hne].
  - rewrite lookup_insert_eq in Hl. by injection Hl as <-.
  - rewrite lookup_insert_ne in Hl by done. by apply Hm.
Qed.

Lemma keyed_by_id_delete (m : gmap string JsObject) id :
  keyed_by_id m -> keyed_by_id (delete id m).
Proof.
  intros Hm k item Hl. destruct (decide (id = k)) as [->|Hne].
  - by rewrite lookup_delete_eq in Hl.
  - rewrite lookup_delete_ne in Hl by done. by apply Hm.
Qed.

Lemma item_key_PatientID item id :
  item_key item = Some id -> item !! "PatientID" = Some (JsStr id).
Proof.
  intros [Hp _]%item_key_prop. unfold prop in Hp.
  destruct (item !! "PatientID") as [v|]; simpl in Hp; [by rewrite Hp | done].
Qed.

Lemma dropped_item_PatientID item id :
  item_key item = Some id -> drop_undefined item !! "PatientID" = Some (JsStr id).
Proof.
  intros H%item_key_PatientID. by apply lookup_drop_undefined_Some.
Qed.

Lemma updated_item_PatientID id updateData w :
  keyed_by_id (store w) ->
  updated_item id updateData w !! "PatientID" = Some (JsStr id).
Proof.
  intros Hw. unfold updated_item.
  do 4 (rewrite lookup_insert_ne by discriminate).
  destruct (store w !! id) as [item|] eqn:Hl; simpl.
  - by apply (Hw id).
  - apply lookup_singleton_eq.
Qed.

Lemma handler_keeps_store_keyed env r req w :
  keyed_by_id (store w) -> keyed_by_id (store (snd (handler env r req w))).
Proof.
  intros Hw.
  destruct r;
    try (match goal with
         | |- context [handler env ?r0 req w] =>
             by rewrite (proj1 (read_handlers_change_nothing env r0 req w I))
         end);
    cbn [handler]; unfold post_patients, patch_patient, delete_patient; rewrite handle_world.
  - destruct (createPatient_world env (new_patient env (body req)) w)
      as [[-> _] | (id & Hid & -> & _)]; [done|].
    apply keyed_by_id_insert; [done | by apply dropped_item_PatientID].
  - destruct (updatePatient_world env id (body req) w) as [_ [-> | ->]]; [done|].
    apply keyed_by_id_insert; [done | by apply updated_item_PatientID].
  - destruct (deletePatient_world env id w) as [[-> _] | [-> _]]; [done|].
    by apply keyed_by_id_delete.
Qed.

Lemma handler_keeps_index_keyed env r req w :
  keyed_by_id (index w) -> keyed_by_id (index (snd (handler env r req w))).
Proof.
  intros Hw.
  destruct r;
    try (match goal with
         | |- context [handler env ?r0 req w] =>
             by rewrite (proj2 (read_handlers_change_nothing env r0 req w I))
         end);
    cbn [handler]; unfold post_patients, patch_patient, delete_patient; rewrite handle_world.
  - destruct (createPatient_world env (new_patient env (body req)) w)
      as [[_ ->] | (id & Hid & _ & [-> | ->])]; [done..|].
    apply keyed_by_id_insert; [done | by apply dropped_item_PatientID].
  - by destruct (updatePatient_world env id (body req) w) as [-> _].
  - destruct (deletePatient_world env id w) as [[_ ->] | [_ [-> | ->]]]; [done..|].
    by apply keyed_by_id_delete.
Qed.

(** X19.  The store keeps every record under its own [PatientID]: if
    that holds before a request, it holds after it, whatever the request
    and however it ends. *)
Theorem store_stays_keyed_by_id cfg idp env req w :
  keyed_by_id (store w) ->
  keyed_by_id (store (snd (app cfg idp env req w))).
Proof.
  intros Hw. unfold app.
  destruct (payload req) as [e|parsed]; [done|].
  destruct (protected (route env req)); [|by apply handler_keeps_store_keyed].
  destruct (authenticate cfg idp env req); [|done].
  by apply handler_keeps_store_keyed.
Qed.

(** X20.  The index keeps every document under the [PatientID] it
    carries: if that holds before a request, it holds after it. *)
Theorem index_stays_keyed_by_id cfg idp env req w :
  keyed_by_id (index w) ->
  keyed_by_id (index (snd (app cfg idp env req w))).
Proof.
  intros Hw. unfold app.
  destruct (payload req) as [e|parsed]; [done|].
  destruct (protected (route env req)); [|by apply handler_keeps_index_keyed].
  destruct (authenticate cfg idp env req); [|done].
  by apply handler_keeps_index_keyed.
Qed.

(** X21.  A create touches nothing but the minted id and a delete nothing
    but the id it names, in the store and in the index alike, however they
    end. *)
Theorem writes_touch_one_id env req w :
  (forall id', id' <> uuidv4 env ->
     store (snd (post_patients env req w)) !! id' = store w !! id'
     /\ index (snd (post_patients env req w)) !! id' = index w !! id')
  /\ (forall id id', id' <> id ->
        store (snd (delete_patient env id req w)) !! id' = store w !! id'
        /\ index (snd (delete_patient env id req w)) !! id' = index w !! id').
Proof.
  split.
  - intros id' Hne. unfold post_patients. rewrite handle_world.
    destruct (createPatient_world env (new_patient env (body req)) w)
      as [[-> ->] | (id & Hid & -> & Hi)]; [done|].
    apply new_patient_key in Hid as ->.
    split; [by apply lookup_insert_ne|].
    destruct Hi as [-> | ->]; [done | by apply lookup_insert_ne].
  - intros id id' Hne. unfold delete_patient. rewrite handle_world.
    destruct (deletePatient_world env id w) as [[-> ->] | [-> Hi]]; [done|].
    split; [by apply lookup_delete_ne|].
    destruct Hi as [-> | ->]; [done | by apply lookup_delete_ne].
Qed.

(** ** Incomplete bodies *)

(** X22.  Neither the create nor the update handler fills in a field the
    body leaves out, and the two then part ways.  On a create the record
    carries [undefined] for it, which the document client drops: a create
    answered 201 has stored and indexed a record without that attribute,
    and the create is answered 201 when both services serve the request
    and the rest of the record is one the store takes.  On an update the
    expression carries [undefined] as a value, the command is refused
    before it reaches the table, the handler answers 500, the index is not
    called and store and index stay as they were. *)
Theorem missing_field_dropped_on_create_refused_on_update env req w a :
  a ∈ ["Name"; "Address"; "Conditions"; "Allergies"] ->
  body req !! a = None ->
  (forall res w',
     post_patients env req w = (res, w') ->
     status res = 201 ->
     exists patientData,
       store w' !! uuidv4 env = Some patientData
       /\ index w' !! uuidv4 env = Some patientData
       /\ patientData !! "PatientID" = Some (JsStr (uuidv4 env))
       /\ patientData !! a = None)
  /\ (dynamo_serves env = true ->
      opensearch_serves env = true ->
      uuidv4 env <> "" ->
      (forall b, b ∈ ["Name"; "Address"; "Conditions"; "Allergies"] ->
         prop (body req) b = JsUndefined \/ marshallable (prop (body req) b) = true) ->
      prop (body req) "Address" = JsUndefined
      \/ index_key_ok (prop (body req) "Address") = true ->
      status (fst (post_patients env req w)) = 201)
  /\ forall id,
       patch_patient env id req w
       = ({| status := 500; content := Text "Something went wrong!" |},
          record_call (DynamoSend (update_command id (body req))) w).
Proof.
  intros Ha Hnone.
  assert (prop (body req) a = JsUndefined) as Hundef by (unfold prop; by rewrite Hnone).
  split; [|split].
  - intros res w'. unfold post_patients, handle.
    destruct (createPatient env (new_patient env (body req)) w) as [[result|e] w0] eqn:Hc;
      intros [= <- <-]; [intros _|discriminate].
    apply createPatient_fulfilled_key in Hc as (id & Hkey & _ & Hs & Hi).
    pose proof (dropped_item_PatientID _ _ Hkey) as Hid.
    apply new_patient_key in Hkey as ->.
    exists (drop_undefined (new_patient env (body req))).
    rewrite Hs, Hi, !lookup_insert_eq. split; [done|]. split; [done|].
    split; [done|].
    by rewrite lookup_drop_undefined, (new_patient_field env _ a Ha), Hundef.
  - intros Hd Ho Hid Hm Haddr.
    destruct (createPatient_served env (new_patient env (body req)) w
                (new_patient_well_formed env (body req) Hid Hm Haddr) Hd Ho) as [w' Hc].
    unfold post_patients, handle. by rewrite Hc.
  - intros id.
    assert (well_formed (update_command id (body req)) = false) as Hwf.
    { cbn [well_formed update_command].
      apply andb_false_iff. left. apply andb_false_iff. right.
      cbn [forallb snd].
      rewrite !elem_of_cons in Ha.
      destruct Ha as [-> | [-> | [-> | [-> | Ha]]]];
        [rewrite Hundef; simpl; by rewrite ?andb_false_r .. |].
      apply elem_of_nil in Ha. destruct Ha. }
    unfold patch_patient, handle, updatePatient, try_catch, dynamo_send.
    fold (update_command id (body req)). by rewrite Hwf.
Qed.

(** ** Which service each read consults *)

(** X23.  The two search routes answer from the index alone: in two
    worlds whose indexes agree they give the same answer, whatever the
    stores hold. *)
Theorem search_routes_read_index_only env req w w2 :
  index w = index w2 ->
  fst (get_search_condition env req w) = fst (get_search_condition env req w2)
  /\ fst (get_search_address env req w) = fst (get_search_address env req w2).
Proof.
  intros Hi.
  unfold get_search_condition, get_search_address, handle, searchByCondition,
    searchByAddress, try_catch, OpenSearchClient.search, throw.
  destruct (opensearch_serves env); [|done].
  split.
  - destruct (query_param req "condition"); try done. simpl. by rewrite Hi.
  - destruct (query_param req "address"); try done. simpl. by rewrite Hi.
Qed.

(** X24.  The three store reads (by id, by address, by condition) answer
    from the store alone: in two worlds whose stores agree they give the
    same answer, whatever the indexes hold. *)
Theorem store_routes_read_store_only env req id w w2 :
  store w = store w2 ->
  fst (get_patient env id req w) = fst (get_patient env id req w2)
  /\ fst (get_address env req w) = fst (get_address env req w2)
  /\ fst (get_condition env req w) = fst (get_condition env req w2).
Proof.
  intros Hs.
  unfold get_patient, get_address, get_condition, handle, getPatient,
    findPatientsByAddress, findPatientsByCondition, try_catch, dynamo_send, throw.
  repeat split.
  - destruct (well_formed (GetCommand id)); [|done]. simpl.
    destruct (dynamo_serves env); [|done]. simpl. by rewrite Hs.
  - destruct (well_formed (QueryCommand _ _ _)); [|done]. simpl.
    destruct (dynamo_serves env); [|done]. simpl.
    unfold table_items. simpl. by rewrite Hs.
  - destruct (well_formed (ScanCommand _ _)); [|done]. simpl.
    destruct (dynamo_serves env); [|done]. simpl.
    unfold table_items. simpl. by rewrite Hs.
Qed.

(** ** How many client calls a request makes *)

Lemma createPatient_calls env patientData w :
  exists made,
    calls (snd (createPatient env patientData w)) = (calls w ++ made)%list
    /\ store_then_index made.
Proof.
  unfold createPatient, try_catch, bind.
  destruct (dynamo_send env (PutCommand patientData) w) as [[out|e] w1] eqn:Hput.
  - apply dynamo_send_inv in Hput as (Hwf & _ & Hrun).
    destruct (put_accepted_key _ Hwf) as [id Hid].
    simpl in Hrun. rewrite Hid in Hrun. injection Hrun as <- <-.
    unfold indexPatient, try_catch, OpenSearchClient.index, throw, ret.
    eexists [_; _].
    destruct (opensearch_serves env); simpl; rewrite <- app_assoc;
      (split; [reflexivity | exact I]).
  - apply dynamo_send_rejected_world in Hput as (_ & _ & Hc).
    unfold throw. simpl. rewrite Hc. eexists [_]. split; [reflexivity | exact I].
Qed.

Lemma deletePatient_calls env id w :
  exists made,
    calls (snd (deletePatient env id w)) = (calls w ++ made)%list
    /\ store_then_index made.
Proof.
  unfold deletePatient, try_catch, bind.
  destruct (dynamo_send env (DeleteCommand id) w) as [[out|e] w1] eqn:Hdel.
  - apply dynamo_send_inv in Hdel as (_ & _ & Hrun).
    simpl in Hrun. injection Hrun as <- <-.
    unfold removePatientFromOpenSearch, try_catch, OpenSearchClient.delete, throw, ret.
    eexists [_; _].
    destruct (opensearch_serves env); simpl;
      [|rewrite <- app_assoc; split; [reflexivity | exact I]].
    destruct (index w !! id); simpl; rewrite <- app_assoc;
      (split; [reflexivity | exact I]).
  - apply dynamo_send_rejected_world in Hdel as (_ & _ & Hc).
    unfold throw. simpl. rewrite Hc. eexists [_]. split; [reflexivity | exact I].
Qed.

Lemma search_calls env field text w :
  calls (snd (OpenSearchClient.search env field text w))
  = (calls w ++ [OpenSearchCall (OsSearch field text)])%list.
Proof.
  unfold OpenSearchClient.search.
  destruct (opensearch_serves env); [|done]. by destruct text.
Qed.

Lemma read_handlers_call_once env r req w :
  match r with
  | PostPatients | PatchPatient _ | DeletePatient _ => False
  | _ => True
  end ->
  exists made,
    calls (snd (handler env r req w)) = (calls w ++ made)%list
    /\ (length made <= 1)%nat.
Proof.
  destruct r; try done; intros _; cbn [handler];
    try (exists []; simpl; rewrite app_nil_r; split; [reflexivity | lia]);
    unfold get_search_condition, get_search_address, get_address, get_condition,
      get_patient, searchByCondition, searchByAddress, findPatientsByAddress,
      findPatientsByCondition, getPatient;
    rewrite handle_world, ?try_catch_throw_world;
    eexists [_];
    first [rewrite search_calls | rewrite dynamo_send_calls];
    (split; [reflexivity | simpl; lia]).
Qed.

Lemma store_then_index_short (made : list Call) :
  (length made <= 1)%nat -> store_then_index made.
Proof.
  destruct made as [|c [|c' made]]; simpl; [done | by destruct c | intros H; lia].
Qed.

Lemma store_then_index_length (made : list Call) :
  store_then_index made -> (length made <= 2)%nat.
Proof.
  destruct made as [|c [|c' [|c'' made]]]; simpl; try lia.
  by destruct c, c', made.
Qed.

Lemma handlers_call_at_most_twice env r req w :
  exists made,
    calls (snd (handler env r req w)) = (calls w ++ made)%list
    /\ store_then_index made.
Proof.
  destruct r;
    try (match goal with
         | |- context [handler env ?r0 req w] =>
             destruct (read_handlers_call_once env r0 req w I) as (made & -> & Hlen);
             exists made; split; [done | by apply store_then_index_short]
         end);
    cbn [handler]; unfold post_patients, patch_patient, delete_patient;
    rewrite handle_world.
  - apply createPatient_calls.
  - unfold updatePatient. rewrite try_catch_throw_world, dynamo_send_calls.
    eexists [_]. split; [reflexivity | exact I].
  - apply deletePatient_calls.
Qed.

Lemma get_routes_read env req :
  method req = GET ->
  match route env req with
  | PostPatients | PatchPatient _ | DeletePatient _ => False
  | _ => True
  end.
Proof.
  intros Hm. unfold route. rewrite Hm.
  destruct (trim_slash (path req)) as [|p [|s [|t [|u l]]]]; try done;
    repeat (match goal with
            | |- context [if ?b then _ else _] => destruct b
            | |- context [match decodeURIComponent env ?s with _ => _ end] =>
                destruct (decodeURIComponent env s)
            end; try done).
Qed.

(** X25.  Whatever the request and its outcome, the application invokes
    the methods of its two clients ([dynamo.send] and the OpenSearch
    client's [index], [delete] and [search]) at most twice: nothing, one
    invocation, or one [send] to the store followed by one call of the
    index client; a GET invokes at most one.  (What each client does on the
    wire for one invocation, retries included, is the client's own affair
    and is not counted here.) *)
Theorem requests_make_at_most_two_calls cfg idp env req w :
  exists made,
    calls (snd (app cfg idp env req w)) = (calls w ++ made)%list
    /\ store_then_index made
    /\ (length made <= 2)%nat
    /\ (method req = GET -> (length made <= 1)%nat).
Proof.
  assert (exists made,
            calls (snd (app cfg idp env req w)) = (calls w ++ made)%list
            /\ store_then_index made
            /\ (method req = GET -> (length made <= 1)%nat))
    as (made & Hc & Hshape & Hget).
  { unfold app.
    destruct (payload req) as [e|parsed].
    { exists []. simpl. rewrite app_nil_r. split; [done|]. split; [done | intros _; lia]. }
    destruct (protected (route env req));
      [destruct (authenticate cfg idp env req)|].
    - destruct (handlers_call_at_most_twice env (route env req) req w)
        as (made & Hc & Hshape).
      exists made. split; [done|]. split; [done|]. intros Hm.
      destruct (read_handlers_call_once env (route env req) req w
                  (get_routes_read env req Hm)) as (made' & Hc' & Hlen).
      rewrite Hc in Hc'. by apply app_inv_head in Hc' as ->.
    - exists []. simpl. rewrite app_nil_r. split; [done|]. split; [done | intros _; lia].
    - destruct (handlers_call_at_most_twice env (route env req) req w)
        as (made & Hc & Hshape).
      exists made. split; [done|]. split; [done|]. intros Hm.
      destruct (read_handlers_call_once env (route env req) req w
                  (get_routes_read env req Hm)) as (made' & Hc' & Hlen).
      rewrite Hc in Hc'. by apply app_inv_head in Hc' as ->. }
  exists made. split; [done|]. split; [done|].
  split; [by apply store_then_index_length | done].
Qed.

(** ** The further statements at work on the sample service *)

Lemma jwks_fetched_under_issuer_witness :
  fetchJWKS (Config.Configs Sample.process_env) Sample.idp "good"
  = fetchJWKS (Config.Configs Sample.process_env) Scenario.idp_strict "good".
Proof.
  apply (jwks_fetched_under_issuer Sample.process_env Sample.idp Scenario.idp_strict
           "good");
    [reflexivity | intros kid; reflexivity].
Defined.


Lemma filter_without_parameter_fails_witness :
  query Scenario.address_unasked !! "address" = None
  /\ status (fst (get_address Sample.env Scenario.address_unasked Sample.world_with_jane))
     = 500.
Proof.
  split; [reflexivity|].
  destruct (filter_without_parameter_fails Sample.env Scenario.address_unasked
              Sample.world_with_jane) as [Haddress _].
  destruct (Haddress eq_refl) as [-> _]. reflexivity.
Defined.

Lemma created_patient_reads_back_witness :
  status (fst (post_patients Sample.env Scenario.create_without_allergies
                 Sample.empty_world)) = 201
  /\ exists patientData,
       content (fst (get_patient Sample.env (uuidv4 Sample.env) Sample.get_stranger
                       (snd (post_patients Sample.env Scenario.create_without_allergies
                               Sample.empty_world))))
       = Json {|
           statusCode := "FETCHED_SUCCESSFULLY";
           data := DataItem (Some patientData);
           description := "Patient fetched successfully" |}
       /\ patientData !! "PatientID" = Some (JsStr "6f1c")
       /\ patientData !! "Name" = Some (JsStr "Joe")
       /\ patientData !! "Allergies" = None.
Proof.
  split; [vm_compute; reflexivity|].
  destruct (created_patient_reads_back Sample.env Scenario.create_without_allergies
              Sample.empty_world
              (fst (post_patients Sample.env Scenario.create_without_allergies
                      Sample.empty_world))
              (snd (post_patients Sample.env Scenario.create_without_allergies
                      Sample.empty_world))
              Sample.env Sample.get_stranger)
    as (patientData & sent & Hget & _ & _ & Hid & Hfields);
    [apply surjective_pairing | vm_compute; reflexivity | reflexivity |].
  exists patientData. split; [by rewrite Hget|]. split; [exact Hid|].
  split.
  - destruct (Hfields "Name") as [Hname _]; [repeat constructor|].
    apply Hname. vm_compute. discriminate.
  - destruct (Hfields "Allergies") as [_ Hallergies]; [repeat constructor|].
    apply Hallergies. vm_compute. reflexivity.
Defined.

Lemma deleted_patient_reads_as_missing_witness :
  status (fst (get_patient Sample.env "6f1c" Sample.get_stranger
                 (snd (deletePatient Sample.env "6f1c" Sample.world_with_jane))))
  = 200.
Proof.
  rewrite (deleted_patient_reads_as_missing Sample.env "6f1c" Sample.world_with_jane
             (fst (dynamo_run Sample.env (DeleteCommand "6f1c") Sample.world_with_jane))
             (snd (deletePatient Sample.env "6f1c" Sample.world_with_jane))
             Sample.env Sample.get_stranger);
    [reflexivity | vm_compute; reflexivity | reflexivity].
Defined.

Lemma create_then_delete_restores_witness :
  store (snd (deletePatient Sample.env "6f1c"
                (snd (createPatient Sample.env Sample.jane Sample.empty_world))))
  = store Sample.empty_world.
Proof.
  apply (create_then_delete_restores Sample.env Sample.jane Sample.empty_world
           Sample.jane
           (snd (createPatient Sample.env Sample.jane Sample.empty_world))
           Sample.env "6f1c" empty_output
           (snd (deletePatient Sample.env "6f1c"
                   (snd (createPatient Sample.env Sample.jane Sample.empty_world)))));
    [vm_compute; reflexivity | reflexivity | reflexivity | reflexivity
    | vm_compute; reflexivity].
Defined.


Lemma store_stays_keyed_by_id_witness :
  keyed_by_id (store (snd (app Sample.cfg Sample.idp Sample.env Sample.patch_stranger
                             Sample.empty_world))).
Proof.
  apply (store_stays_keyed_by_id Sample.cfg Sample.idp Sample.env Sample.patch_stranger
           Sample.empty_world).
  intros k item Hl. simpl in Hl. by rewrite lookup_empty in Hl.
Defined.

Lemma index_stays_keyed_by_id_witness :
  keyed_by_id (index (snd (app Sample.cfg Sample.idp Sample.env Sample.create_jane
                             Sample.empty_world))).
Proof.
  apply (index_stays_keyed_by_id Sample.cfg Sample.idp Sample.env Sample.create_jane
           Sample.empty_world).
  intros k item Hl. simpl in Hl. by rewrite lookup_empty in Hl.
Defined.

Lemma writes_touch_one_id_witness :
  store (snd (delete_patient Sample.env "77aa" Sample.get_stranger Sample.world_with_jane))
    !! "6f1c"
  = store Sample.world_with_jane !! "6f1c".
Proof.
  destruct (writes_touch_one_id Sample.env Sample.get_stranger Sample.world_with_jane)
    as [_ Hdelete].
  apply (Hdelete "77aa" "6f1c"). discriminate.
Defined.

Lemma missing_field_dropped_on_create_refused_on_update_witness :
  body Scenario.create_without_allergies !! "Allergies" = None
  /\ status (fst (post_patients Sample.env Scenario.create_without_allergies
                    Sample.empty_world)) = 201
  /\ (exists patientData,
        store (snd (post_patients Sample.env Scenario.create_without_allergies
                      Sample.empty_world)) !! "6f1c" = Some patientData
        /\ patientData !! "Allergies" = None)
  /\ app Sample.cfg Sample.idp Sample.env Edge.patch_jane_address
        Sample.world_with_jane
     = ({| status := 500; content := Text "Something went wrong!" |},
        record_call (DynamoSend (update_command "6f1c" Edge.only_address))
          Sample.world_with_jane).
Proof.
  split; [vm_compute; reflexivity|].
  destruct (missing_field_dropped_on_create_refused_on_update Sample.env
              Scenario.create_without_allergies Sample.empty_world "Allergies")
    as (Heffect & Hserved & _); [repeat constructor | vm_compute; reflexivity |].
  assert (status (fst (post_patients Sample.env Scenario.create_without_allergies
                         Sample.empty_world)) = 201) as Hcreated.
  { apply Hserved;
      [reflexivity | reflexivity | discriminate | | right; vm_compute; reflexivity].
    intros b Hb. rewrite !elem_of_cons in Hb.
    destruct Hb as [-> | [-> | [-> | [-> | Hb]]]];
      [right; vm_compute; reflexivity | right; vm_compute; reflexivity
      | right; vm_compute; reflexivity | left; vm_compute; reflexivity
      | apply elem_of_nil in Hb; destruct Hb]. }
  split; [exact Hcreated|]. split.
  - destruct (Heffect _ _ (surjective_pairing _) Hcreated)
      as (patientData & Hs & _ & _ & Ha).
    exists patientData. split; [exact Hs | exact Ha].
  - destruct (missing_field_dropped_on_create_refused_on_update Sample.env
                Edge.patch_jane_address Sample.world_with_jane "Name")
      as (_ & _ & Hpatch); [repeat constructor | vm_compute; reflexivity |].
    change (app Sample.cfg Sample.idp Sample.env Edge.patch_jane_address
              Sample.world_with_jane)
      with (patch_patient Sample.env "6f1c" Edge.patch_jane_address
              Sample.world_with_jane).
    apply Hpatch.
Defined.

Lemma search_routes_read_index_only_witness :
  fst (get_search_condition Sample.env Sample.get_stranger Sample.empty_world)
  = fst (get_search_condition Sample.env Sample.get_stranger Scenario.world_unindexed).
Proof.
  apply (search_routes_read_index_only Sample.env Sample.get_stranger
           Sample.empty_world Scenario.world_unindexed).
  reflexivity.
Defined.

Lemma store_routes_read_store_only_witness :
  fst (get_patient Sample.env "6f1c" Sample.get_stranger Sample.world_with_jane)
  = fst (get_patient Sample.env "6f1c" Sample.get_stranger Scenario.world_unindexed).
Proof.
  apply (store_routes_read_store_only Sample.env Sample.get_stranger "6f1c"
           Sample.world_with_jane Scenario.world_unindexed).
  reflexivity.
Defined.
